(** * Video-to-audio conversion services: a shallow embedding

    The repository holds two small HTTP services around one media library:
    - [api.py]: a FastAPI application with [POST /convert], [GET /] and
      a health-check function;
    - [app.py]: a Flask application with [POST /extract-audio].

    Python [str] values are modelled by Rocq strings, read as sequences of
    code points below 256.  The filesystem is a finite map from paths to
    file contents.  Handlers are written in a state-and-exception monad
    over the process state (files and standard output).  What the outside
    world decides (random bytes, I/O faults, what the media library does
    with a given file) is supplied by an environment record. *)

From Stdlib Require Import ZArith NArith Lia Ascii DecimalString.
From stdpp Require Import base strings gmap list option.

Open Scope string_scope.
Open Scope Z_scope.

(** ** Python string primitives *)

Module Str.

Definition chars (s : string) : list ascii := String.list_ascii_of_string s.

Definition code (c : ascii) : N := N_of_ascii c.

(** [c in s] for a one-character needle. *)
Fixpoint contains (c : ascii) (s : string) : bool :=
  match s with
  | EmptyString => false
  | String a r => if decide (a = c) then true else contains c r
  end.

(** [str.lower] on code points below 256: A-Z and the Latin-1 capitals
    U+00C0..U+00DE (without the multiplication sign U+00D7) move up by 32. *)
Definition lower_char (c : ascii) : ascii :=
  let n := code c in
  if ((65 <=? n) && (n <=? 90))%N
     || ((192 <=? n) && (n <=? 222) && negb (n =? 215))%N
  then ascii_of_N (n + 32) else c.

Fixpoint lower (s : string) : string :=
  match s with
  | EmptyString => EmptyString
  | String a r => String (lower_char a) (lower r)
  end.

(** [s.replace(old, new)] for one-character [old] and [new]. *)
Fixpoint replace (old new : ascii) (s : string) : string :=
  match s with
  | EmptyString => EmptyString
  | String a r => String (if decide (a = old) then new else a) (replace old new r)
  end.

(** Index of the last occurrence of [c], if any. *)
Fixpoint rindex (c : ascii) (s : string) : option nat :=
  match s with
  | EmptyString => None
  | String a r =>
      match rindex c r with
      | Some i => Some (S i)
      | None => if decide (a = c) then Some O else None
      end
  end.

(** [s.rfind(c)]: the index of the last occurrence, or -1. *)
Definition rfind (c : ascii) (s : string) : Z :=
  match rindex c s with
  | Some i => Z.of_nat i
  | None => -1
  end.

(** [s[:n]] and [s[n:]] for a non-negative [n]. *)
Fixpoint take (n : nat) (s : string) : string :=
  match n, s with
  | S n', String a r => String a (take n' r)
  | _, _ => EmptyString
  end.

Fixpoint drop (n : nat) (s : string) : string :=
  match n, s with
  | S n', String _ r => drop n' r
  | _, _ => s
  end.

(** [s[i:j]] for [0 <= i <= j]. *)
Definition slice (i j : nat) (s : string) : string := take (j - i) (drop i s).

(** [s[i:i+1]]: the one-character slice, empty when out of range. *)
Definition at_index (i : nat) (s : string) : string := slice i (S i) s.

(** [s.rsplit(c, 1)]. *)
Definition rsplit1 (c : ascii) (s : string) : list string :=
  match rindex c s with
  | Some i => [take i s; drop (S i) s]
  | None => [s]
  end.

(** [sep.join(l)]. *)
Fixpoint join (sep : string) (l : list string) : string :=
  match l with
  | [] => ""
  | [x] => x
  | x :: r => x +:+ sep +:+ join sep r
  end.

(** [str.isspace] on one code point below 256. *)
Definition is_space (c : ascii) : bool :=
  let n := code c in
  (((9 <=? n) && (n <=? 13)) || ((28 <=? n) && (n <=? 32))
   || (n =? 133) || (n =? 160))%N.

(** [s.split()]: the maximal runs of non-whitespace characters.
    [cur] is the run being read, in reverse. *)
Fixpoint split_go (cur : list ascii) (s : string) : list string :=
  match s with
  | EmptyString =>
      match cur with [] => [] | _ => [String.string_of_list_ascii (rev cur)] end
  | String a r =>
      if is_space a then
        match cur with
        | [] => split_go [] r
        | _ => String.string_of_list_ascii (rev cur) :: split_go [] r
        end
      else split_go (a :: cur) r
  end.

Definition split (s : string) : list string := split_go [] s.

Fixpoint filter (p : ascii -> bool) (s : string) : string :=
  match s with
  | EmptyString => EmptyString
  | String a r => if p a then String a (filter p r) else filter p r
  end.

(** [s.lstrip(cs)], [s.rstrip(cs)] and [s.strip(cs)]. *)
Fixpoint lstrip (cs : string) (s : string) : string :=
  match s with
  | EmptyString => EmptyString
  | String a r => if contains a cs then lstrip cs r else s
  end.

Fixpoint rstrip (cs : string) (s : string) : string :=
  match s with
  | EmptyString => EmptyString
  | String a r =>
      match rstrip cs r with
      | EmptyString => if contains a cs then EmptyString else String a EmptyString
      | r' => String a r'
      end
  end.

Definition strip (cs : string) (s : string) : string := rstrip cs (lstrip cs s).

(** [s.startswith(c)] and [s.endswith(c)] for a one-character [c]. *)
Definition startswith (c : ascii) (s : string) : bool :=
  match s with
  | String a _ => bool_decide (a = c)
  | EmptyString => false
  end.

Fixpoint endswith (c : ascii) (s : string) : bool :=
  match s with
  | EmptyString => false
  | String a EmptyString => bool_decide (a = c)
  | String _ r => endswith c r
  end.

(** Every character of [s] satisfies [p]. *)
Fixpoint all (p : ascii -> bool) (s : string) : bool :=
  match s with
  | EmptyString => true
  | String a r => p a && all p r
  end.

(** [s.removeprefix(pre)] when [s] starts with [pre]. *)
Fixpoint strip_prefix (pre s : string) : option string :=
  match pre, s with
  | EmptyString, _ => Some s
  | String a pre', String b s' => if decide (a = b) then strip_prefix pre' s' else None
  | String _ _, EmptyString => None
  end.

(** Truthiness of an optional string: [None] and [""] are falsy. *)
Definition truthy (o : option string) : bool :=
  match o with
  | Some (String _ _) => true
  | _ => false
  end.

End Str.

(** ** [os.path] and [uuid] *)

Module Os.

(** [os.path.join(a, b)] (posixpath, two arguments). *)
Definition path_join (a b : string) : string :=
  if Str.startswith "/" b then b
  else if bool_decide (a = "") || Str.endswith "/" a then a +:+ b
  else a +:+ "/" +:+ b.

(** The loop of [genericpath._splitext] that skips leading dots: [n] is
    the number of iterations left, [dotIndex - filenameIndex]. *)
Fixpoint skip_leading_dots (n : nat) (p : string) (filenameIndex dotIndex : nat)
  : string * string :=
  match n with
  | O => (p, "")
  | S n' =>
      if negb (String.eqb (Str.at_index filenameIndex p) ".")
      then (Str.take dotIndex p, Str.drop dotIndex p)
      else skip_leading_dots n' p (S filenameIndex) dotIndex
  end.

(** [os.path.splitext(p)] with [sep = '/'], no [altsep], [extsep = '.']. *)
Definition path_splitext (p : string) : string * string :=
  let sepIndex := Str.rfind "/" p in
  let dotIndex := Str.rfind "." p in
  if dotIndex >? sepIndex then
    let filenameIndex := sepIndex + 1 in
    skip_leading_dots (Z.to_nat (dotIndex - filenameIndex)) p
                      (Z.to_nat filenameIndex) (Z.to_nat dotIndex)
  else (p, "").

End Os.

Module Uuid.

(** [uuid.uuid4()]: sixteen random bytes read as a big-endian integer,
    with the variant and version bits overwritten. *)
Definition uuid4 (urandom16 : N) : N :=
  let int := (urandom16 mod 2 ^ 128)%N in
  let int := N.ldiff int (N.shiftl 0xc000 48) in
  let int := N.lor int (N.shiftl 0x8000 48) in
  let int := N.ldiff int (N.shiftl 0xf000 64) in
  N.lor int (N.shiftl 4 76).

Definition hex_digit (d : N) : ascii :=
  nth (N.to_nat d) (Str.chars "0123456789abcdef") "0"%char.

(** The [k] low hexadecimal digits of [n], most significant first. *)
Fixpoint hex_digits (k : nat) (n : N) : string :=
  match k with
  | O => ""
  | S k' => hex_digits k' (n / 16)%N +:+ String (hex_digit (n mod 16)%N) ""
  end.

(** [str(u)] for a UUID with integer value [int] below [2^128]:
    ['%032x' % int] cut into groups of 8, 4, 4, 4 and 12 digits. *)
Definition str (int : N) : string :=
  let hex := hex_digits 32 int in
  Str.slice 0 8 hex +:+ "-" +:+ Str.slice 8 12 hex +:+ "-" +:+
  Str.slice 12 16 hex +:+ "-" +:+ Str.slice 16 20 hex +:+ "-" +:+ Str.drop 20 hex.

End Uuid.

(** ** Process state, exceptions and the handler monad *)

Record state := State {
  files : gmap string string;   (* path -> content *)
  stdout : list string          (* lines the program's [print] calls wrote *)
}.

Inductive exn :=
  | Exception (msg : string)
  | HTTPException (status_code : Z) (detail : string).

(** [str(e)]. *)
Definition str_exn (e : exn) : string :=
  match e with
  | Exception msg => msg
  | HTTPException status_code detail =>
      NilEmpty.string_of_int (Z.to_int status_code) +:+ ": " +:+ detail
  end.

Inductive outcome (A : Type) :=
  | Return (a : A)
  | Raise (e : exn).
Arguments Return {A} a.
Arguments Raise {A} e.

Definition M (A : Type) : Type := state -> outcome A * state.

#[export] Instance M_ret : MRet M := fun A a σ => (Return a, σ).

#[export] Instance M_bind : MBind M := fun A B k m σ =>
  match m σ with
  | (Return a, σ') => k a σ'
  | (Raise e, σ') => (Raise e, σ')
  end.

Definition raise {A} (e : exn) : M A := fun σ => (Raise e, σ).

(** [try: body  except Exception as e: handler(e)]. *)
Definition try_except {A} (body : M A) (handler : exn -> M A) : M A := fun σ =>
  match body σ with
  | (Return a, σ') => (Return a, σ')
  | (Raise e, σ') => handler e σ'
  end.

Definition get_files : M (gmap string string) := fun σ => (Return (files σ), σ).

Definition put_files (fs : gmap string string) : M unit := fun σ =>
  (Return tt, State fs (stdout σ)).

Definition print (line : string) : M unit := fun σ =>
  (Return tt, State (files σ) (stdout σ ++ [line])).

(** [os.path.exists(p)]. *)
Definition path_exists (p : string) : M bool :=
  fs ← get_files; mret (bool_decide (is_Some (fs !! p))).

(** [os.remove(p)]: raises when there is no such file. *)
Definition os_remove (p : string) : M unit :=
  fs ← get_files;
  match fs !! p with
  | Some _ => put_files (delete p fs)
  | None => raise (Exception ("[Errno 2] No such file or directory: '" +:+ p +:+ "'"))
  end.

(** ** The environment of one request *)

(** Writing the upload to disk: it succeeds, or it raises before the
    file is created, or it raises after [open] has created the file and
    the first [written] bytes have reached it. *)
Inductive save_behaviour :=
  | Saved
  | FailsBeforeCreate (msg : string)
  | FailsAfterCreate (written : nat) (msg : string).

(** What the media library does with the file it is given. *)
Inductive write_behaviour :=
  | Writes (data : string)        (* write_audiofile stores [data] *)
  | WriteRaises (msg : string).   (* write_audiofile raises *)

Inductive clip_behaviour :=
  | OpenRaises (msg : string)                 (* VideoFileClip(path) raises *)
  | Opens (audio : option write_behaviour).   (* the clip and its [audio] *)

Record Env := {
  urandom16 : N;               (* the bytes os.urandom(16) returns *)
  set_order : list string;     (* iteration order of ALLOWED_EXTENSIONS *)
  save : save_behaviour;
  clip : clip_behaviour
}.

(** [with open(p, "wb") as f: f.write(content)]. *)
Definition write_file (b : save_behaviour) (p content : string) : M unit :=
  match b with
  | Saved => fs ← get_files; put_files (<[p := content]> fs)
  | FailsBeforeCreate msg => raise (Exception msg)
  | FailsAfterCreate written msg =>
      fs ← get_files; put_files (<[p := Str.take written content]> fs);;
      raise (Exception msg)
  end.

Module Moviepy.

(** [VideoFileClip(video_path)], giving the clip's [audio] attribute. *)
Definition VideoFileClip (lib : clip_behaviour) (video_path : string)
  : M (option write_behaviour) :=
  match lib with
  | OpenRaises msg => raise (Exception msg)
  | Opens audio => mret audio
  end.

(** [audio.write_audiofile(audio_path, ...)].  The model keeps the file the
    call produces and the exception it may raise; the progress text that the
    library's logger may print, and the bytes a failed call may leave behind,
    are outside it. *)
Definition write_audiofile (audio : write_behaviour) (audio_path : string) : M unit :=
  match audio with
  | Writes data => fs ← get_files; put_files (<[audio_path := data]> fs)
  | WriteRaises msg => raise (Exception msg)
  end.

End Moviepy.

(** ** HTTP responses *)

Inductive response :=
  | FileResponse (path filename media_type : string)       (* status 200 *)
  | JSONResponse (status_code : Z) (content : list (string * string))
  | InternalServerError                                    (* status 500 *)
  | UnprocessableEntity.       (* status 422: the framework's validation error *)

Definition status_of (r : response) : Z :=
  match r with
  | FileResponse _ _ _ => 200
  | JSONResponse s _ => s
  | InternalServerError => 500
  | UnprocessableEntity => 422
  end.

(** ** [api.py]: the FastAPI service *)

Module Api.

Definition UPLOAD_FOLDER : string := "uploads".
Definition OUTPUT_FOLDER : string := "outputs".
Definition ALLOWED_EXTENSIONS : gset string :=
  {[ "mp4"; "avi"; "mov"; "mkv"; "webm" ]}.

(** [UploadFile]: the declared filename (possibly absent) and the body. *)
Record UploadFile := {
  filename : option string;
  body : string
}.

Definition allowed_file (filename : string) : bool :=
  Str.contains "." filename &&
  match Str.rsplit1 "." filename !! 1%nat with
  | Some ext => bool_decide (Str.lower ext ∈ ALLOWED_EXTENSIONS)
  | None => false
  end.

Definition extract_audio_moviepy (lib : clip_behaviour) (video_path audio_path : string)
  : M (bool * string) :=
  try_except
    (found ← path_exists video_path;
     if negb found then
       mret (false, "Error: Video file not found at '" +:+ video_path +:+ "'")
     else
       audio ← Moviepy.VideoFileClip lib video_path;
       match audio with
       | None => mret (false, "Error: No audio track found in '" +:+ video_path +:+ "'")
       | Some audio_clip =>
           Moviepy.write_audiofile audio_clip audio_path;;
           mret (true, "Audio extraction successful!")
       end)
    (fun e => mret (false, "An error occurred during audio extraction: " +:+ str_exn e)).

Definition OUTPUT_FORMATS : list string := ["mp3"; "wav"; "ogg"; "aac"].

Definition unique_id (env : Env) : string := Uuid.str (Uuid.uuid4 (urandom16 env)).

(** [file.filename.replace(" ", "_")]. *)
Definition sanitize (declared : string) : string := Str.replace " " "_" declared.

Definition video_path (env : Env) (declared : string) : string :=
  Os.path_join UPLOAD_FOLDER (unique_id env +:+ "_" +:+ sanitize declared).

Definition base_filename (declared : string) : string :=
  fst (Os.path_splitext (sanitize declared)).

Definition audio_path (env : Env) (declared format : string) : string :=
  Os.path_join OUTPUT_FOLDER
    (unique_id env +:+ "_" +:+ base_filename declared +:+ "." +:+ format).

Definition convert_video_to_audio (env : Env) (file : UploadFile) (format : string)
  : M response :=
  if negb (bool_decide (Str.lower format ∈ OUTPUT_FORMATS)) then
    raise (HTTPException 400 ("Unsupported output format: " +:+ format))
  else if negb (Str.truthy (filename file))
          || negb (allowed_file (default "" (filename file))) then
    let allowed_formats := Str.join ", " (set_order env) in
    raise (HTTPException 400
             ("Invalid file format. Allowed formats: " +:+ allowed_formats))
  else
    let declared := default "" (filename file) in
    let video_path := video_path env declared in
    let audio_path := audio_path env declared format in
    try_except
      (write_file (save env) video_path (body file))
      (fun e => raise (HTTPException 500
                         ("Failed to save uploaded file: " +:+ str_exn e)));;
    '(success, message) ← extract_audio_moviepy (clip env) video_path audio_path;
    found ← path_exists video_path;
    (if (found : bool) then os_remove video_path else mret tt);;
    if (success : bool) then
      mret (FileResponse audio_path
              (base_filename declared +:+ "." +:+ format)
              ("audio/" +:+ format))
    else raise (HTTPException 500 message).

Definition welcome : list (string * string) :=
  [("message",
    "Welcome to the Video to Audio Conversion API! Use /convert to extract audio from videos.")].

Definition health_check : list (string * string) := [("status", "healthy")].

(** *** Routing *)

Inductive http_method := GET | POST.

#[export] Instance http_method_eq_dec : EqDecision http_method.
Proof. solve_decision. Defined.

Inductive endpoint := convert_video_to_audio_fn | welcome_fn | health_check_fn.

(** A function definition of the module with the route decorators
    written above it, top to bottom. *)
Record def_stmt := {
  decorators : list (http_method * string);
  defined : endpoint
}.

(** The function definitions of [api.py], in source order. *)
Definition module_defs : list def_stmt :=
  [ {| decorators := [(POST, "/convert")]; defined := convert_video_to_audio_fn |};
    {| decorators := [(GET, "/health"); (GET, "/")]; defined := welcome_fn |};
    {| decorators := []; defined := health_check_fn |} ].

(** Decorators are applied from the one nearest to the function
    outwards; each application appends one route. *)
Definition register (d : def_stmt) : list (http_method * string * endpoint) :=
  (fun r => (r, defined d)) <$> rev (decorators d).

Definition routes : list (http_method * string * endpoint) :=
  mbind register module_defs.

(** The first route that matches the method and the path. *)
Definition dispatch (m : http_method) (path : string) : option endpoint :=
  match list_find (fun r : http_method * string * endpoint => r.1 = (m, path)) routes with
  | Some (_, (_, f)) => Some f
  | None => None
  end.

(** The framework turns what the handler returns or raises into a response. *)
Definition respond (o : outcome response) : response :=
  match o with
  | Return r => r
  | Raise (HTTPException status_code detail) =>
      JSONResponse status_code [("detail", detail)]
  | Raise (Exception _) => InternalServerError
  end.

(** The value the framework passes for [format = Form("mp3")]: the
    submitted text, or the default when the field is absent or empty. *)
Definition form_value (format : option string) : string :=
  match format with
  | Some (String _ _ as submitted) => submitted
  | Some EmptyString | None => "mp3"
  end.

(** [POST /convert].  The framework validates the parameters before it calls
    the handler: a request without an upload in the field [file] (the part
    is missing or carries no filename; [filename file = None] stands for
    both) is answered with 422 and the handler does not run. *)
Definition post_convert (env : Env) (file : UploadFile) (format : option string)
  (σ : state) : response * state :=
  match filename file with
  | None => (UnprocessableEntity, σ)
  | Some _ =>
      let '(o, σ') := convert_video_to_audio env file (form_value format) σ in
      (respond o, σ')
  end.

(** A [GET] request: the dictionary returned by the matched endpoint as
    JSON; 405 when the path is routed for another method only, 404 when it
    is not routed at all.  No [GET] route leads to [convert_video_to_audio];
    called without its upload the framework would answer 422. *)
Definition get (path : string) : response :=
  match dispatch GET path with
  | Some welcome_fn => JSONResponse 200 welcome
  | Some health_check_fn => JSONResponse 200 health_check
  | Some convert_video_to_audio_fn => UnprocessableEntity
  | None =>
      if bool_decide (path ∈ (fun r : http_method * string * endpoint => r.1.2) <$> routes)
      then JSONResponse 405 [("detail", "Method Not Allowed")]
      else JSONResponse 404 [("detail", "Not Found")]
  end.

End Api.

(** ** [werkzeug.utils.secure_filename] *)

Module Werkzeug.

(** The characters kept by the pattern [[^A-Za-z0-9_.-]] being removed. *)
Definition ascii_safe (c : ascii) : bool :=
  let n := Str.code c in
  (((65 <=? n) && (n <=? 90)) || ((97 <=? n) && (n <=? 122))
   || ((48 <=? n) && (n <=? 57)) || (n =? 95) || (n =? 46) || (n =? 45))%N.

Section secure_filename.

(** [unicodedata.normalize("NFKD", s).encode("ascii", "ignore").decode("ascii")],
    left uninterpreted. *)
Variable nfkd_ascii : string -> string.

(** On POSIX [os.sep] is ['/'] and there is no [os.path.altsep]. *)
Definition secure_filename (filename : string) : string :=
  let filename := nfkd_ascii filename in
  let filename := Str.replace "/" " " filename in
  Str.strip "._" (Str.filter ascii_safe (Str.join "_" (Str.split filename))).

End secure_filename.

End Werkzeug.

(** ** [app.py]: the Flask service *)

Module App.

Definition UPLOAD_DIR : string := "uploads".
Definition AUDIO_DIR : string := "audio_outputs".

(** An uploaded part: its declared filename and its bytes. *)
Record FileStorage := {
  filename : string;
  stream : string
}.

Record Request := {
  request_files : gmap string FileStorage;
  request_form : gmap string string
}.

Definition extract_audio (lib : clip_behaviour) (video_path audio_path : string)
  : M bool :=
  try_except
    (audio ← Moviepy.VideoFileClip lib video_path;
     match audio with
     | None => mret false
     | Some audio_clip =>
         Moviepy.write_audiofile audio_clip audio_path;;
         mret true
     end)
    (fun e => print ("Error: " +:+ str_exn e);; mret false).

Section handler.

Variable nfkd_ascii : string -> string.

Definition video_path (declared : string) : string :=
  Os.path_join UPLOAD_DIR (Werkzeug.secure_filename nfkd_ascii declared).

Definition audio_path (declared output_format : string) : string :=
  let filename := Werkzeug.secure_filename nfkd_ascii declared in
  let audio_filename := fst (Os.path_splitext filename) +:+ "." +:+ output_format in
  Os.path_join AUDIO_DIR audio_filename.

(** The handler returns the JSON dictionary and the status code. *)
Definition extract_audio_api (env : Env) (request : Request)
  : M (list (string * string) * Z) :=
  match request_files request !! "file" with
  | None => mret ([("error", "No file provided")], 400)
  | Some file =>
      let output_format := default "mp3" (request_form request !! "output_format") in
      if bool_decide (filename file = "") then
        mret ([("error", "No selected file")], 400)
      else
        let video_path := video_path (filename file) in
        let audio_path := audio_path (filename file) output_format in
        write_file (save env) video_path (stream file);;
        ok ← extract_audio (clip env) video_path audio_path;
        if (ok : bool) then
          mret ([("message", "Audio extracted successfully");
                 ("audio_file", audio_path)], 200)
        else mret ([("error", "Failed to extract audio")], 500)
  end.

(** The framework's answer: the handler's JSON, or 500 when it raised. *)
Definition respond (o : outcome (list (string * string) * Z)) : response :=
  match o with
  | Return (content, status_code) => JSONResponse status_code content
  | Raise _ => InternalServerError
  end.

(** [POST /extract-audio]. *)
Definition post_extract_audio (env : Env) (request : Request) (σ : state)
  : response * state :=
  let '(o, σ') := extract_audio_api env request σ in
  (respond o, σ').

End handler.

End App.

(** ** Vocabulary of the specification *)

(** [ext] is the extension of [name]: what follows its last ['.']. *)
Definition has_extension (name ext : string) : Prop :=
  ∃ pre, name = pre +:+ "." +:+ ext ∧ Str.contains "." ext = false.

(** [path] names an entry directly inside the directory [dir]. *)
Definition is_direct_child (dir path : string) : bool :=
  match Str.strip_prefix (dir +:+ "/") path with
  | Some name =>
      negb (bool_decide (name = "")) && negb (Str.contains "/" name)
      && negb (bool_decide (name = ".")) && negb (bool_decide (name = ".."))
  | None => false
  end.

(** The error taxonomy of the extraction step. *)
Inductive ExtractionError :=
  | InputNotFound
  | NoAudioTrack
  | ExtractionFailed (msg : string).

(** The failure, if any, of an extraction run in state [σ]. *)
Definition extraction_failure (σ : state) (lib : clip_behaviour) (video_path : string)
  : option ExtractionError :=
  match files σ !! video_path, lib with
  | None, _ => Some InputNotFound
  | Some _, OpenRaises msg => Some (ExtractionFailed msg)
  | Some _, Opens None => Some NoAudioTrack
  | Some _, Opens (Some (WriteRaises msg)) => Some (ExtractionFailed msg)
  | Some _, Opens (Some (Writes _)) => None
  end.

(** The message [api.py] attaches to each failure. *)
Definition error_message (err : ExtractionError) (video_path : string) : string :=
  match err with
  | InputNotFound => "Error: Video file not found at '" +:+ video_path +:+ "'"
  | NoAudioTrack => "Error: No audio track found in '" +:+ video_path +:+ "'"
  | ExtractionFailed msg => "An error occurred during audio extraction: " +:+ msg
  end.

(** Whether the media library writes an audio file. *)
Definition writes_audio (lib : clip_behaviour) : bool :=
  match lib with
  | Opens (Some (Writes _)) => true
  | _ => false
  end.

(** NFKD folding restricted to text that is already ASCII, where it changes
    nothing; other characters are dropped. *)
Definition fold_ascii (s : string) : string :=
  Str.filter (fun c => (Str.code c <? 128)%N) s.

(** The characters of a printed UUID: lower-case hexadecimal digits and ['-']. *)
Definition uuid_char (c : ascii) : bool := Str.contains c "0123456789abcdef-".

(** The value of a hexadecimal digit character. *)
Definition hex_value (c : ascii) : N :=
  let n := Str.code c in
  if (n <? 58)%N then (n - 48)%N else (n - 87)%N.

(** Reading a string of hexadecimal digits, most significant first. *)
Fixpoint parse_hex (acc : N) (s : string) : N :=
  match s with
  | EmptyString => acc
  | String c r => parse_hex (16 * acc + hex_value c)%N r
  end.

(** No whitespace character. *)
Definition not_space (c : ascii) : bool := negb (Str.is_space c).

(** A declared filename the input check refuses: empty, or with no
    extension among the allowed ones. *)
Definition bad_filename (name : string) : Prop :=
  name = ""
  ∨ ∀ ext, has_extension name ext -> Str.lower ext ∉ Api.ALLOWED_EXTENSIONS.




(** ** Sample inputs *)

(** The bytes of the sample uploads are placeholders: what the media
    library makes of a file is given by the environment, it is not computed
    from the content. *)

Definition tab : ascii := "009"%char.

Definition empty_state : state := State ∅ [].

Definition sample_env (seed : N) (lib : clip_behaviour) : Env :=
  {| urandom16 := seed;
     set_order := ["mp4"; "avi"; "mov"; "mkv"; "webm"];
     save := Saved;
     clip := lib |}.

Definition sample_upload (name : string) : Api.UploadFile :=
  {| Api.filename := Some name; Api.body := "VIDEO" |}.

Definition sample_request (name bytes output_format : string) : App.Request :=
  {| App.request_files := {[ "file" := {| App.filename := name; App.stream := bytes |} ]};
     App.request_form := {[ "output_format" := output_format ]} |}.

(** ** Vocabulary for faults and side effects *)

(** The message of the exception raised while saving, if any. *)
Definition save_failure (b : save_behaviour) : option string :=
  match b with
  | Saved => None
  | FailsBeforeCreate msg | FailsAfterCreate _ msg => Some msg
  end.

(** The files once the save of [content] at [p] has returned or raised: the
    whole content, nothing new after an early failure, the bytes written so
    far after a late one. *)
Definition after_save (b : save_behaviour) (p content : string)
  (fs : gmap string string) : gmap string string :=
  match b with
  | Saved => <[p := content]> fs
  | FailsBeforeCreate _ => fs
  | FailsAfterCreate written _ => <[p := Str.take written content]> fs
  end.

(** What is left at the scratch path [p] once [/convert] has answered 500:
    nothing after a completed save (the file was removed), and what the
    failed save left otherwise. *)
Definition scratch_after (b : save_behaviour) (p content : string)
  (fs : gmap string string) : gmap string string :=
  match b with
  | Saved => delete p fs
  | _ => after_save b p content fs
  end.

(** Whether a response is a one-field JSON error that starts with the
    input-not-found message of [extract_audio_moviepy]. *)
Definition reports_missing_input (r : response) : bool :=
  match r with
  | JSONResponse _ [(_, detail)] =>
      bool_decide (is_Some (Str.strip_prefix "Error: Video file not found" detail))
  | _ => false
  end.

(** An environment whose save behaves as [b], and a state that already
    holds a file and a printed line. *)
Definition failing_env (b : save_behaviour) : Env :=
  {| urandom16 := 0; set_order := []; save := b; clip := Opens None |}.

Definition busy_state : state := State {[ "notes/todo.txt" := "KEEP" ]} ["started"].

(** * Properties *)

(** ** Strings *)

Section string_facts.

Implicit Types (s t : string) (c a : ascii) (p : ascii -> bool).

Lemma append_cons a s t : String a s +:+ t = String a (s +:+ t).
Proof. reflexivity. Qed.

Lemma append_nil_r s : s +:+ "" = s.
Proof. induction s as [|a s IH]; [done|]. by rewrite append_cons, IH. Qed.

Lemma length_append s t :
  String.length (s +:+ t) = (String.length s + String.length t)%nat.
Proof. induction s as [|a s IH]; [done|]. rewrite append_cons. simpl. by rewrite IH. Qed.

(** Two concatenations that agree and whose heads have the same length
    have the same head. *)
Lemma append_inj_length s1 s2 t1 t2 :
  String.length s1 = String.length s2 ->
  s1 +:+ t1 = s2 +:+ t2 -> s1 = s2 ∧ t1 = t2.
Proof.
  revert s2. induction s1 as [|a s1 IH]; intros [|b s2] Hlen Heq;
    try discriminate; [done|].
  rewrite !append_cons in Heq. injection Heq as -> Heq.
  injection Hlen as Hlen. destruct (IH _ Hlen Heq) as [-> ->]. done.
Qed.

Lemma contains_append c s t :
  Str.contains c (s +:+ t) = Str.contains c s || Str.contains c t.
Proof.
  induction s as [|a s IH]; [done|]. rewrite append_cons. simpl.
  by destruct (decide (a = c)).
Qed.

Lemma all_append p s t : Str.all p (s +:+ t) = Str.all p s && Str.all p t.
Proof.
  induction s as [|a s IH]; [done|]. rewrite append_cons. simpl.
  by rewrite IH, andb_assoc.
Qed.

Lemma all_impl p q s :
  (∀ c, p c = true -> q c = true) -> Str.all p s = true -> Str.all q s = true.
Proof.
  intros Hpq. induction s as [|a s IH]; [done|]. simpl.
  intros [Ha Hs]%andb_true_iff. by rewrite (Hpq _ Ha), IH.
Qed.

(** A character rejected by [p] does not occur in a string of [p]-characters. *)
Lemma all_contains p c s :
  p c = false -> Str.all p s = true -> Str.contains c s = false.
Proof.
  intros Hc. induction s as [|a s IH]; [done|]. simpl.
  intros [Ha Hs]%andb_true_iff. destruct (decide (a = c)) as [->|]; [congruence|auto].
Qed.

Lemma all_take p n s : Str.all p s = true -> Str.all p (Str.take n s) = true.
Proof.
  revert n. induction s as [|a s IH]; intros [|n]; try done. simpl.
  intros [Ha Hs]%andb_true_iff. by rewrite Ha, IH.
Qed.

Lemma all_drop p n s : Str.all p s = true -> Str.all p (Str.drop n s) = true.
Proof.
  revert n. induction s as [|a s IH]; intros [|n]; try done. simpl.
  intros [Ha Hs]%andb_true_iff. by apply IH.
Qed.

Lemma all_filter p s : Str.all p (Str.filter p s) = true.
Proof.
  induction s as [|a s IH]; [done|]. simpl.
  destruct (p a) eqn:Ha; [|done]. simpl. by rewrite Ha.
Qed.

Lemma all_lstrip p cs s : Str.all p s = true -> Str.all p (Str.lstrip cs s) = true.
Proof.
  induction s as [|a s IH]; [done|]. simpl.
  destruct (Str.contains a cs); [|done]. intros [_ Hs]%andb_true_iff. auto.
Qed.

Lemma all_rstrip p cs s : Str.all p s = true -> Str.all p (Str.rstrip cs s) = true.
Proof.
  induction s as [|a s IH]; [done|]. simpl.
  intros [Ha Hs]%andb_true_iff. specialize (IH Hs).
  destruct (Str.rstrip cs s) as [|b r].
  - destruct (Str.contains a cs); [done|]. simpl. by rewrite Ha.
  - simpl in *. by rewrite Ha, IH.
Qed.

Lemma str_length_take n s : String.length (Str.take n s) = (n `min` String.length s)%nat.
Proof.
  revert n. induction s as [|a s IH]; intros [|n]; try done. simpl. by rewrite IH.
Qed.

Lemma str_length_drop n s : String.length (Str.drop n s) = (String.length s - n)%nat.
Proof.
  revert n. induction s as [|a s IH]; intros [|n]; try done. simpl. by rewrite IH.
Qed.

Lemma str_take_drop n s : Str.take n s +:+ Str.drop n s = s.
Proof.
  revert n. induction s as [|a s IH]; intros [|n]; try done. simpl.
  by rewrite append_cons, IH.
Qed.

Lemma rindex_None c s : Str.rindex c s = None -> Str.contains c s = false.
Proof.
  induction s as [|a s IH]; [done|]. simpl.
  destruct (Str.rindex c s); [done|]. destruct (decide (a = c)); [done|auto].
Qed.

Lemma contains_rindex c s : Str.contains c s = true -> is_Some (Str.rindex c s).
Proof.
  destruct (Str.rindex c s) eqn:E; [eauto|].
  apply rindex_None in E. congruence.
Qed.

(** What sits at, and after, the last occurrence of [c]. *)
Lemma rindex_Some c s i :
  Str.rindex c s = Some i ->
  Str.drop i s = String c (Str.drop (S i) s)
  ∧ Str.contains c (Str.drop (S i) s) = false.
Proof.
  revert i. induction s as [|a s IH]; [done|]. intros i. cbn [Str.rindex].
  destruct (Str.rindex c s) as [j|] eqn:E.
  - intros [= <-]. destruct (IH j eq_refl) as [H1 H2]. done.
  - destruct (decide (a = c)) as [->|]; [|done]. intros [= <-].
    split; [by destruct s|]. destruct s; [done|]. by apply rindex_None.
Qed.

Lemma contains_false_rindex c s : Str.contains c s = false -> Str.rindex c s = None.
Proof.
  intros H. destruct (Str.rindex c s) as [i|] eqn:E; [|done].
  destruct (rindex_Some _ _ _ E) as [Hat _].
  assert (Str.contains c (Str.take i s +:+ Str.drop i s) = true) as Hc
    by (rewrite contains_append, Hat; simpl; rewrite decide_True by done;
        apply orb_true_r).
  rewrite str_take_drop in Hc. congruence.
Qed.

(** The last occurrence of [c] in [pre ++ c ++ ext] when [ext] has none. *)
Lemma rindex_append c pre ext :
  Str.contains c ext = false ->
  Str.rindex c (pre +:+ String c ext) = Some (String.length pre).
Proof.
  intros H. induction pre as [|a pre IH].
  - change ("" +:+ String c ext) with (String c ext). simpl.
    rewrite (contains_false_rindex _ _ H). by rewrite decide_True.
  - rewrite append_cons. simpl. by rewrite IH.
Qed.

Lemma drop_append_cons pre c ext :
  Str.drop (S (String.length pre)) (pre +:+ String c ext) = ext.
Proof. induction pre as [|a pre IH]; [done|]. by rewrite append_cons. Qed.

Lemma str_drop_drop n m s : Str.drop m (Str.drop n s) = Str.drop (n + m) s.
Proof.
  revert s. induction n as [|n IH]; intros s; [done|].
  destruct s as [|a s]; [by destruct m|]. apply IH.
Qed.

Lemma slice_drop i j s :
  (i <= j)%nat -> Str.slice i j s +:+ Str.drop j s = Str.drop i s.
Proof.
  intros H. unfold Str.slice. replace j with (i + (j - i))%nat at 2 by lia.
  rewrite <- str_drop_drop. apply str_take_drop.
Qed.

Lemma replace_append old new s t :
  Str.replace old new (s +:+ t) = Str.replace old new s +:+ Str.replace old new t.
Proof.
  induction s as [|a s IH]; [done|]. rewrite append_cons. simpl.
  by rewrite IH, append_cons.
Qed.

Lemma replace_contains_other c old new s :
  c ≠ old -> c ≠ new -> Str.contains c (Str.replace old new s) = Str.contains c s.
Proof.
  intros Ho Hn. induction s as [|a s IH]; [done|]. simpl. rewrite IH.
  destruct (decide (a = old)) as [->|]; [|done].
  by rewrite !decide_False by congruence.
Qed.

Lemma take_append_length pre s : Str.take (String.length pre) (pre +:+ s) = pre.
Proof.
  induction pre as [|a pre IH]; [by destruct s|].
  rewrite append_cons. simpl. by rewrite IH.
Qed.

Lemma drop_append_length pre s : Str.drop (String.length pre) (pre +:+ s) = s.
Proof. induction pre as [|a pre IH]; [done|]. by rewrite append_cons. Qed.






Lemma replace_removes old new s :
  old ≠ new -> Str.contains old (Str.replace old new s) = false.
Proof.
  intros Hne. induction s as [|a s IH]; [done|]. simpl.
  destruct (decide (a = old)) as [->|];
    destruct (decide _) as [?|]; try done; congruence.
Qed.

(** A stripped string does not begin with a stripped character. *)
Lemma rstrip_head cs a s :
  Str.contains a cs = false ->
  ∃ r, Str.rstrip cs (String a s) = String a r.
Proof.
  intros Ha. simpl. destruct (Str.rstrip cs s); rewrite ?Ha; eauto.
Qed.

Lemma strip_head cs s :
  match Str.strip cs s with
  | EmptyString => True
  | String a _ => Str.contains a cs = false
  end.
Proof.
  unfold Str.strip. induction s as [|a s IH]; [done|]. cbn [Str.lstrip].
  destruct (Str.contains a cs) eqn:Ha; [done|].
  destruct (rstrip_head cs a s Ha) as [r ->]. done.
Qed.

Lemma strip_prefix_append pre s : Str.strip_prefix pre (pre +:+ s) = Some s.
Proof.
  induction pre as [|a pre IH]; [by destruct s|].
  rewrite append_cons. simpl. by rewrite decide_True.
Qed.

Lemma startswith_append c s t :
  s ≠ "" -> Str.startswith c (s +:+ t) = Str.startswith c s.
Proof. by destruct s. Qed.

Lemma all_startswith p c s :
  p c = false -> Str.all p s = true -> Str.startswith c s = false.
Proof.
  intros Hc. destruct s as [|a s]; [done|]. simpl.
  intros [Ha _]%andb_true_iff. apply bool_decide_eq_false. congruence.
Qed.

End string_facts.

(** ** Paths and tokens *)

Lemma hex_digit_char d : uuid_char (Uuid.hex_digit d) = true.
Proof.
  unfold Uuid.hex_digit. generalize (N.to_nat d) as i. intros i.
  do 16 (destruct i as [|i]; [reflexivity|]). by destruct i.
Qed.

Lemma length_hex_digits k n : String.length (Uuid.hex_digits k n) = k.
Proof.
  revert n. induction k as [|k IH]; intros n; [done|]. simpl.
  rewrite length_append, IH. simpl. lia.
Qed.

Lemma all_hex_digits k n : Str.all uuid_char (Uuid.hex_digits k n) = true.
Proof.
  revert n. induction k as [|k IH]; intros n; [done|]. simpl.
  rewrite all_append, IH. simpl. by rewrite hex_digit_char.
Qed.

Lemma length_uuid_str n : String.length (Uuid.str n) = 36%nat.
Proof.
  unfold Uuid.str, Str.slice.
  rewrite !length_append, !str_length_take, !str_length_drop, length_hex_digits.
  reflexivity.
Qed.

Lemma all_uuid_str n : Str.all uuid_char (Uuid.str n) = true.
Proof.
  pose proof (all_hex_digits 32 n) as H.
  assert (∀ i j, Str.all uuid_char (Str.slice i j (Uuid.hex_digits 32 n)) = true)
    as Hslice by (intros; by apply all_take, all_drop).
  unfold Uuid.str. rewrite !all_append, !Hslice, all_drop by done. reflexivity.
Qed.

Lemma uuid_str_nonempty n : Uuid.str n ≠ "".
Proof. intros E. pose proof (length_uuid_str n) as H. by rewrite E in H. Qed.

Lemma hex_value_digit d : (d < 16)%N -> hex_value (Uuid.hex_digit d) = d.
Proof.
  intros H. unfold Uuid.hex_digit.
  assert (N.to_nat d < 16)%nat as Hlt by lia.
  rewrite <- (N2Nat.id d) at 2. revert Hlt.
  generalize (N.to_nat d) as i. intros i Hlt.
  do 16 (destruct i as [|i]; [reflexivity|]). lia.
Qed.

Lemma parse_hex_append acc s t :
  parse_hex acc (s +:+ t) = parse_hex (parse_hex acc s) t.
Proof.
  revert acc. induction s as [|a s IH]; intros acc; [done|].
  rewrite append_cons. simpl. apply IH.
Qed.

(** Reading back the digits that were printed. *)
Lemma parse_hex_digits k n acc :
  parse_hex acc (Uuid.hex_digits k n)
  = (acc * 16 ^ N.of_nat k + n mod 16 ^ N.of_nat k)%N.
Proof.
  revert n acc. induction k as [|k IH]; intros n acc.
  - simpl. rewrite N.mod_1_r. lia.
  - cbn [Uuid.hex_digits]. rewrite parse_hex_append, IH. cbn [parse_hex].
    rewrite hex_value_digit by (apply N.mod_lt; lia).
    rewrite Nat2N.inj_succ, N.pow_succ_r'.
    rewrite (N.Div0.mod_mul_r n 16 (16 ^ N.of_nat k)). lia.
Qed.

Lemma hex_digits_inj k n m :
  Uuid.hex_digits k n = Uuid.hex_digits k m ->
  (n mod 16 ^ N.of_nat k = m mod 16 ^ N.of_nat k)%N.
Proof.
  intros H. pose proof (parse_hex_digits k n 0) as Hn.
  rewrite H, parse_hex_digits in Hn. lia.
Qed.

Lemma slices_join h :
  Str.slice 0 8 h +:+ Str.slice 8 12 h +:+ Str.slice 12 16 h +:+
  Str.slice 16 20 h +:+ Str.drop 20 h = h.
Proof. by rewrite !slice_drop by lia. Qed.

Lemma uuid_str_hex n m :
  Uuid.str n = Uuid.str m -> Uuid.hex_digits 32 n = Uuid.hex_digits 32 m.
Proof.
  unfold Uuid.str.
  generalize (length_hex_digits 32 n), (length_hex_digits 32 m).
  generalize (Uuid.hex_digits 32 n) as h, (Uuid.hex_digits 32 m) as h'.
  intros h h' Hh Hh' H.
  assert (∀ i j, String.length (Str.slice i j h) = String.length (Str.slice i j h'))
    as Hlen.
  { intros. unfold Str.slice.
    by rewrite !str_length_take, !str_length_drop, Hh, Hh'. }
  apply append_inj_length in H as [H1 H]; [|done].
  apply (inj (String.append "-")) in H.
  apply append_inj_length in H as [H2 H]; [|done].
  apply (inj (String.append "-")) in H.
  apply append_inj_length in H as [H3 H]; [|done].
  apply (inj (String.append "-")) in H.
  apply append_inj_length in H as [H4 H]; [|done].
  apply (inj (String.append "-")) in H.
  rewrite <- (slices_join h), <- (slices_join h').
  by rewrite H1, H2, H3, H4, H.
Qed.

Lemma lor_lt_pow2 a b n : (a < 2 ^ n -> b < 2 ^ n -> N.lor a b < 2 ^ n)%N.
Proof.
  intros Ha Hb. destruct (N.eq_dec a 0%N) as [->|Ha0]; [by rewrite N.lor_0_l|].
  destruct (N.eq_dec b 0%N) as [->|Hb0]; [by rewrite N.lor_0_r|].
  apply N.log2_lt_pow2;
    [|rewrite N.log2_lor; apply N.max_lub_lt; apply N.log2_lt_pow2; lia].
  destruct (N.eq_dec (N.lor a b) 0%N) as [E|]; [|lia].
  apply N.lor_eq_0_iff in E. lia.
Qed.

(** A generated UUID fits in 128 bits. *)
Lemma uuid4_lt r : (Uuid.uuid4 r < 2 ^ 128)%N.
Proof.
  unfold Uuid.uuid4. cbv zeta.
  apply lor_lt_pow2; [|by vm_compute].
  eapply N.le_lt_trans; [apply N.ldiff_le_l|].
  apply lor_lt_pow2; [|by vm_compute].
  eapply N.le_lt_trans; [apply N.ldiff_le_l|].
  apply N.mod_lt. by vm_compute.
Qed.

(** Printing loses nothing: distinct UUIDs print differently. *)
Lemma uuid_str_inj r1 r2 :
  Uuid.str (Uuid.uuid4 r1) = Uuid.str (Uuid.uuid4 r2) -> Uuid.uuid4 r1 = Uuid.uuid4 r2.
Proof.
  intros H%uuid_str_hex%hex_digits_inj.
  change (16 ^ N.of_nat 32)%N with (2 ^ 128)%N in H.
  by rewrite !N.mod_small in H by apply uuid4_lt.
Qed.

(** [os.path.join] with a relative second part and a directory name that
    has no trailing separator. *)
Lemma path_join_relative dir name :
  dir ≠ "" -> Str.endswith "/" dir = false -> Str.startswith "/" name = false ->
  Os.path_join dir name = dir +:+ "/" +:+ name.
Proof.
  intros Hd He Hn. unfold Os.path_join. rewrite Hn, He.
  by rewrite bool_decide_eq_false_2.
Qed.

Lemma token_not_absolute n rest : Str.startswith "/" (Uuid.str n +:+ rest) = false.
Proof.
  rewrite startswith_append by apply uuid_str_nonempty.
  by apply (all_startswith uuid_char), all_uuid_str.
Qed.

Lemma api_video_path_eq env declared :
  Api.video_path env declared
  = "uploads/" +:+ Api.unique_id env +:+ "_" +:+ Api.sanitize declared.
Proof.
  unfold Api.video_path. rewrite path_join_relative; try done.
  apply token_not_absolute.
Qed.

Lemma api_audio_path_eq env declared format :
  Api.audio_path env declared format
  = "outputs/" +:+ Api.unique_id env +:+ "_" +:+ Api.base_filename declared
      +:+ "." +:+ format.
Proof.
  unfold Api.audio_path. rewrite path_join_relative; try done.
  apply token_not_absolute.
Qed.

Lemma api_paths_differ env declared format :
  Api.audio_path env declared format ≠ Api.video_path env declared.
Proof. rewrite api_video_path_eq, api_audio_path_eq. discriminate. Qed.

(** ** Running handlers *)

Ltac exec :=
  cbv beta iota zeta delta
    [mbind M_bind mret M_ret raise try_except get_files put_files print
     path_exists os_remove write_file
     Moviepy.VideoFileClip Moviepy.write_audiofile].

Lemma run_bind {A B} (m : M A) (k : A -> M B) σ a σ' :
  m σ = (Return a, σ') -> (m ≫= k) σ = k a σ'.
Proof. intros H. unfold mbind, M_bind. by rewrite H. Qed.

(** The guarded removal leaves no file at [p], whether or not there was one. *)
Lemma run_cleanup {B} p (k : unit -> M B) σ :
  (path_exists p ≫= λ found : bool,
     (if found then os_remove p else mret tt) ≫= k) σ
  = k tt (State (delete p (files σ)) (stdout σ)).
Proof.
  exec. cbn [files stdout]. destruct (files σ !! p) as [c|] eqn:E.
  - rewrite bool_decide_eq_true_2 by eauto. by rewrite E.
  - rewrite bool_decide_eq_false_2 by (intros [? ?]; done).
    rewrite delete_id by done. by destruct σ.
Qed.

(** ** The extraction wrappers *)

Lemma extract_moviepy_failure lib vp ap σ err :
  extraction_failure σ lib vp = Some err ->
  Api.extract_audio_moviepy lib vp ap σ = (Return (false, error_message err vp), σ).
Proof.
  unfold extraction_failure, Api.extract_audio_moviepy. exec.
  destruct (files σ !! vp) as [c|] eqn:E.
  - rewrite bool_decide_eq_true_2 by eauto. cbn [negb].
    destruct lib as [msg|[[data|msg]|]]; intros [= <-]; done.
  - rewrite bool_decide_eq_false_2 by (intros [? ?]; done). by intros [= <-].
Qed.

Lemma extract_moviepy_success vp ap σ data :
  is_Some (files σ !! vp) ->
  Api.extract_audio_moviepy (Opens (Some (Writes data))) vp ap σ
  = (Return (true, "Audio extraction successful!"),
     State (<[ap := data]> (files σ)) (stdout σ)).
Proof.
  intros H. unfold Api.extract_audio_moviepy. exec.
  by rewrite bool_decide_eq_true_2.
Qed.

Lemma extraction_failure_writes σ lib vp :
  extraction_failure σ lib vp = None ->
  is_Some (files σ !! vp) ∧ ∃ data, lib = Opens (Some (Writes data)).
Proof.
  unfold extraction_failure. destruct (files σ !! vp); [|done].
  destruct lib as [msg|[[data|msg]|]]; try done. eauto.
Qed.

(** What [extract_audio] of [app.py] does, case by case. *)
Lemma extract_audio_run lib vp ap σ :
  App.extract_audio lib vp ap σ
  = match lib with
    | OpenRaises msg | Opens (Some (WriteRaises msg)) =>
        (Return false, State (files σ) (stdout σ ++ ["Error: " +:+ msg]))
    | Opens None => (Return false, σ)
    | Opens (Some (Writes data)) =>
        (Return true, State (<[ap := data]> (files σ)) (stdout σ))
    end.
Proof. unfold App.extract_audio. by destruct lib as [msg|[[data|msg]|]]. Qed.

(** ** [POST /convert] *)

Lemma allowed_truthy declared :
  Api.allowed_file declared = true -> Str.truthy (Some declared) = true.
Proof. by destruct declared. Qed.

Lemma lower_output_formats f : f ∈ Api.OUTPUT_FORMATS -> Str.lower f = f.
Proof.
  unfold Api.OUTPUT_FORMATS. rewrite !elem_of_cons, elem_of_nil.
  intros [->|[->|[->|[->|[]]]]]; reflexivity.
Qed.

(** A supported format is not empty, so the framework passes it on as it
    was submitted. *)
Lemma form_value_supported format :
  Str.lower format ∈ Api.OUTPUT_FORMATS -> Api.form_value (Some format) = format.
Proof.
  destruct format; [|done]. intros H. by apply (bool_decide_pack _) in H.
Qed.

Lemma form_value_nonempty format : format ≠ "" -> Api.form_value (Some format) = format.
Proof. by destruct format. Qed.

(** The handler after validation: it saves the upload and runs the
    extraction; [k] is what follows. *)
Lemma convert_validated env file format declared σ :
  Str.lower format ∈ Api.OUTPUT_FORMATS ->
  Api.filename file = Some declared ->
  Api.allowed_file declared = true ->
  Api.convert_video_to_audio env file format σ
  = (try_except
       (write_file (save env) (Api.video_path env declared) (Api.body file))
       (fun e => raise (HTTPException 500
                          ("Failed to save uploaded file: " +:+ str_exn e)));;
     '(success, message) ← Api.extract_audio_moviepy (clip env)
                             (Api.video_path env declared)
                             (Api.audio_path env declared format);
     found ← path_exists (Api.video_path env declared);
     (if (found : bool) then os_remove (Api.video_path env declared) else mret tt);;
     if (success : bool) then
       mret (FileResponse (Api.audio_path env declared format)
               (Api.base_filename declared +:+ "." +:+ format)
               ("audio/" +:+ format))
     else raise (HTTPException 500 message)) σ.
Proof.
  intros Hf Hn Ha. unfold Api.convert_video_to_audio.
  rewrite bool_decide_eq_true_2 by done. rewrite Hn. cbn [from_option id negb].
  by rewrite Ha, (allowed_truthy _ Ha).
Qed.

(** A saved upload whose extraction fails. *)
Lemma convert_saved_failure env file format declared σ err :
  Str.lower format ∈ Api.OUTPUT_FORMATS ->
  Api.filename file = Some declared ->
  Api.allowed_file declared = true ->
  save env = Saved ->
  extraction_failure
    (State (<[Api.video_path env declared := Api.body file]> (files σ)) (stdout σ))
    (clip env) (Api.video_path env declared) = Some err ->
  Api.post_convert env file (Some format) σ
  = (JSONResponse 500 [("detail", error_message err (Api.video_path env declared))],
     State (delete (Api.video_path env declared) (files σ)) (stdout σ)).
Proof.
  intros Hf Hn Ha Hs Herr. unfold Api.post_convert.
  rewrite Hn, (form_value_supported _ Hf).
  rewrite (convert_validated _ _ _ declared) by done. rewrite Hs.
  erewrite run_bind by (exec; reflexivity).
  erewrite run_bind by (by apply extract_moviepy_failure).
  cbv beta iota. rewrite run_cleanup. cbn [files stdout].
  by rewrite delete_insert_eq.
Qed.

(** A saved upload whose extraction succeeds. *)
Lemma convert_saved_success env file format declared σ data :
  Str.lower format ∈ Api.OUTPUT_FORMATS ->
  Api.filename file = Some declared ->
  Api.allowed_file declared = true ->
  save env = Saved ->
  clip env = Opens (Some (Writes data)) ->
  Api.post_convert env file (Some format) σ
  = (FileResponse (Api.audio_path env declared format)
       (Api.base_filename declared +:+ "." +:+ format) ("audio/" +:+ format),
     State (<[Api.audio_path env declared format := data]>
              (delete (Api.video_path env declared) (files σ)))
           (stdout σ)).
Proof.
  intros Hf Hn Ha Hs Hc. unfold Api.post_convert.
  rewrite Hn, (form_value_supported _ Hf).
  rewrite (convert_validated _ _ _ declared) by done. rewrite Hs, Hc.
  erewrite run_bind by (exec; reflexivity).
  erewrite run_bind
    by (apply extract_moviepy_success; cbn [files]; by rewrite lookup_insert_eq).
  cbv beta iota. rewrite run_cleanup. cbn [files stdout].
  rewrite delete_insert_ne by apply not_eq_sym, api_paths_differ.
  by rewrite delete_insert_eq.
Qed.

Lemma allowed_file_extension name :
  Api.allowed_file name = true ->
  ∃ ext, has_extension name ext ∧ Str.lower ext ∈ Api.ALLOWED_EXTENSIONS.
Proof.
  unfold Api.allowed_file. intros [Hdot Hext]%andb_true_iff.
  destruct (contains_rindex _ _ Hdot) as [i Hi].
  unfold Str.rsplit1 in Hext. rewrite Hi in Hext. cbn in Hext.
  apply bool_decide_eq_true in Hext.
  destruct (rindex_Some _ _ _ Hi) as [Hat Hafter].
  exists (Str.drop (S i) name). split; [|done].
  exists (Str.take i name). split; [|done].
  rewrite <- (str_take_drop i name) at 1. by rewrite Hat.
Qed.

Lemma has_extension_rsplit name ext :
  has_extension name ext -> Str.rsplit1 "." name !! 1%nat = Some ext.
Proof.
  intros (pre & -> & Hdot). unfold Str.rsplit1.
  change ("." +:+ ext) with (String "." ext).
  rewrite (rindex_append _ _ _ Hdot). by rewrite drop_append_cons.
Qed.

Lemma bad_filename_refused name :
  bad_filename name ->
  negb (Str.truthy (Some name)) || negb (Api.allowed_file name) = true.
Proof.
  intros [->|Hext]; [done|].
  destruct (Api.allowed_file name) eqn:Ha; [|by rewrite orb_true_r].
  destruct (allowed_file_extension _ Ha) as (ext & Hhas & Hin).
  by destruct (Hext ext Hhas).
Qed.

(** ** [secure_filename] and the paths of [app.py] *)

Lemma ascii_safe_not_space c : Werkzeug.ascii_safe c = true -> not_space c = true.
Proof. destruct c as [[] [] [] [] [] [] [] []]; by vm_compute. Qed.

Lemma secure_filename_safe nfkd declared :
  Str.all Werkzeug.ascii_safe (Werkzeug.secure_filename nfkd declared) = true.
Proof.
  unfold Werkzeug.secure_filename, Str.strip.
  apply all_rstrip, all_lstrip, all_filter.
Qed.

Lemma secure_filename_head nfkd declared :
  Str.startswith "." (Werkzeug.secure_filename nfkd declared) = false.
Proof.
  unfold Werkzeug.secure_filename.
  pose proof (strip_head "._"
    (Str.filter Werkzeug.ascii_safe
       (Str.join "_" (Str.split (Str.replace "/" " " (nfkd declared)))))) as H.
  destruct (Str.strip _ _) as [|a r]; [done|]. simpl.
  apply bool_decide_eq_false. intros ->. discriminate.
Qed.

Lemma app_video_path_eq nfkd declared :
  App.video_path nfkd declared = "uploads/" +:+ Werkzeug.secure_filename nfkd declared.
Proof.
  unfold App.video_path. rewrite path_join_relative; try done.
  by apply (all_startswith Werkzeug.ascii_safe), secure_filename_safe.
Qed.

(** ** [os.path.splitext] *)

Lemma skip_leading_dots_join n p fi di :
  (Os.skip_leading_dots n p fi di).1 +:+ (Os.skip_leading_dots n p fi di).2 = p.
Proof.
  revert fi. induction n as [|n IH]; intros fi; simpl; [apply append_nil_r|].
  destruct (negb _); [apply str_take_drop|apply IH].
Qed.

Lemma path_splitext_join p : (Os.path_splitext p).1 +:+ (Os.path_splitext p).2 = p.
Proof.
  unfold Os.path_splitext. destruct (_ >? _);
    [apply skip_leading_dots_join|apply append_nil_r].
Qed.

Lemma skip_leading_dots_ext n p fi i :
  Str.rindex "." p = Some i ->
  (Os.skip_leading_dots n p fi i).2 = ""
  ∨ ∃ e, (Os.skip_leading_dots n p fi i).2 = String "." e ∧ Str.contains "." e = false.
Proof.
  intros Hi. destruct (rindex_Some _ _ _ Hi) as [Hat Hafter].
  revert fi. induction n as [|n IH]; intros fi; simpl; [by left|].
  destruct (negb _); [|apply IH]. right. eauto.
Qed.

(** The extension split off is empty, or a dot followed by dot-free text. *)
Lemma path_splitext_ext p :
  (Os.path_splitext p).2 = ""
  ∨ ∃ e, (Os.path_splitext p).2 = String "." e ∧ Str.contains "." e = false.
Proof.
  unfold Os.path_splitext. cbv zeta. unfold Str.rfind.
  destruct (Str.rindex "." p) as [i|] eqn:Hi.
  - destruct (_ >? _); [|by left]. rewrite Nat2Z.id.
    by apply skip_leading_dots_ext.
  - destruct (_ >? _) eqn:E; [|by left]. exfalso.
    apply Z.gtb_lt in E. destruct (Str.rindex "/" p); lia.
Qed.








(** ** [POST /extract-audio] *)

Lemma app_audio_path_eq nfkd declared output_format :
  App.audio_path nfkd declared output_format
  = "audio_outputs/"
      +:+ (Os.path_splitext (Werkzeug.secure_filename nfkd declared)).1
      +:+ "." +:+ output_format.
Proof.
  unfold App.audio_path. cbv zeta. rewrite path_join_relative; try done.
  pose proof (secure_filename_safe nfkd declared) as Hsafe.
  rewrite <- (path_splitext_join (Werkzeug.secure_filename nfkd declared)) in Hsafe.
  rewrite all_append in Hsafe. apply andb_true_iff in Hsafe as [Hroot _].
  destruct (Os.path_splitext _).1 as [|a r]; [done|].
  rewrite startswith_append by done.
  by apply (all_startswith Werkzeug.ascii_safe).
Qed.

Lemma app_paths_differ nfkd declared output_format :
  App.audio_path nfkd declared output_format ≠ App.video_path nfkd declared.
Proof. rewrite app_video_path_eq, app_audio_path_eq. discriminate. Qed.

(** The whole of [/extract-audio] on a request that carries a named file
    and whose upload is written. *)
Lemma extract_audio_api_saved nfkd env request file σ :
  App.request_files request !! "file" = Some file ->
  App.filename file ≠ "" ->
  save env = Saved ->
  App.post_extract_audio nfkd env request σ
  = let output_format :=
      default "mp3" (App.request_form request !! "output_format") in
    let vp := App.video_path nfkd (App.filename file) in
    let ap := App.audio_path nfkd (App.filename file) output_format in
    let fs := <[vp := App.stream file]> (files σ) in
    match clip env with
    | OpenRaises msg | Opens (Some (WriteRaises msg)) =>
        (JSONResponse 500 [("error", "Failed to extract audio")],
         State fs (stdout σ ++ ["Error: " +:+ msg]))
    | Opens None =>
        (JSONResponse 500 [("error", "Failed to extract audio")],
         State fs (stdout σ))
    | Opens (Some (Writes data)) =>
        (JSONResponse 200 [("message", "Audio extracted successfully");
                           ("audio_file", ap)],
         State (<[ap := data]> fs) (stdout σ))
    end.
Proof.
  intros Hfile Hname Hs. unfold App.post_extract_audio, App.extract_audio_api.
  rewrite Hfile, bool_decide_eq_false_2, Hs by done.
  erewrite run_bind by (exec; reflexivity).
  unfold mbind, M_bind. rewrite extract_audio_run.
  by destruct (clip env) as [msg|[[data|msg]|]].
Qed.

(** [/extract-audio] never removes what it saved. *)
Lemma extract_audio_api_scratch_remains nfkd env request file σ :
  App.request_files request !! "file" = Some file ->
  App.filename file ≠ "" ->
  save env = Saved ->
  files (App.post_extract_audio nfkd env request σ).2
    !! App.video_path nfkd (App.filename file) = Some (App.stream file).
Proof.
  intros Hfile Hname Hs. rewrite (extract_audio_api_saved _ _ _ file) by done.
  cbv zeta. destruct (clip env) as [msg|[[data|msg]|]]; cbn [snd files];
    rewrite ?(lookup_insert_ne _ _ _ _ (app_paths_differ _ _ _));
    apply lookup_insert_eq.
Qed.

(** [/extract-audio] refuses a missing file part and an empty filename. *)
Lemma extract_audio_api_refusals nfkd env request σ :
  (App.request_files request !! "file" = None ->
   App.post_extract_audio nfkd env request σ
   = (JSONResponse 400 [("error", "No file provided")], σ))
  ∧ (∀ file, App.request_files request !! "file" = Some file ->
       App.filename file = "" ->
       App.post_extract_audio nfkd env request σ
       = (JSONResponse 400 [("error", "No selected file")], σ)).
Proof.
  unfold App.post_extract_audio, App.extract_audio_api. split.
  - by intros ->.
  - intros file -> ->. done.
Qed.

(** ** [allowed_file] against the vocabulary *)

Lemma allowed_file_spec name :
  Api.allowed_file name = true
  ↔ ∃ ext, has_extension name ext ∧ Str.lower ext ∈ Api.ALLOWED_EXTENSIONS.
Proof.
  split; [apply allowed_file_extension|].
  intros (ext & Hhas & Hin). unfold Api.allowed_file.
  rewrite (has_extension_rsplit _ _ Hhas), bool_decide_eq_true_2 by done.
  destruct Hhas as (pre & -> & _). rewrite contains_append.
  change ("." +:+ ext) with (String "." ext). simpl.
  by rewrite orb_true_r.
Qed.

(** ** Examples *)

Example lower_mixed : Str.lower "Mp3" = "mp3".
Proof. reflexivity. Qed.

Example rsplit1_two_dots : Str.rsplit1 "." "a.b.MKV" = ["a.b"; "MKV"].
Proof. reflexivity. Qed.

Example rsplit1_no_dot : Str.rsplit1 "." "clip" = ["clip"].
Proof. reflexivity. Qed.

Example split_runs : Str.split "  a b   c " = ["a"; "b"; "c"].
Proof. reflexivity. Qed.

Example splitext_plain : Os.path_splitext "my_clip.mp4" = ("my_clip", ".mp4").
Proof. reflexivity. Qed.

Example splitext_two_dots : Os.path_splitext "x.tar.gz" = ("x.tar", ".gz").
Proof. reflexivity. Qed.

(** A name made of leading dots and a suffix has no extension for
    [os.path.splitext], though [allowed_file] accepts it. *)
Example splitext_leading_dot :
  Os.path_splitext ".mp4" = (".mp4", "") ∧ Api.allowed_file ".mp4" = true.
Proof. by vm_compute. Qed.

Example uuid_str_zero : Uuid.str (Uuid.uuid4 0) = "00000000-0000-4000-8000-000000000000".
Proof. reflexivity. Qed.

Example uuid_str_ones :
  Uuid.str (Uuid.uuid4 (2 ^ 128 - 1)) = "ffffffff-ffff-4fff-bfff-ffffffffffff".
Proof. by vm_compute. Qed.

Example secure_filename_spaces :
  Werkzeug.secure_filename fold_ascii "My cool movie.mov" = "My_cool_movie.mov".
Proof. reflexivity. Qed.

Example secure_filename_traversal :
  Werkzeug.secure_filename fold_ascii "../../../etc/passwd" = "etc_passwd".
Proof. reflexivity. Qed.

Example routes_registered :
  Api.routes = [(Api.POST, "/convert", Api.convert_video_to_audio_fn);
                (Api.GET, "/", Api.welcome_fn);
                (Api.GET, "/health", Api.welcome_fn)].
Proof. reflexivity. Qed.

(** A write that fails once the file is created leaves the file behind:
    the handler answers 500 before it reaches the removal. *)
Example convert_failed_write :
  let env := {| urandom16 := 0; set_order := [];
                save := FailsAfterCreate 2 "disk full"; clip := Opens None |} in
  let r := Api.post_convert env (sample_upload "clip.mp4") (Some "mp3") empty_state in
  r.1 = JSONResponse 500 [("detail", "Failed to save uploaded file: disk full")]
  ∧ files r.2 !! Api.video_path env "clip.mp4" = Some "VI".
Proof. by vm_compute. Qed.

(** An empty format is replaced by the default before the handler sees it,
    and a request without an upload does not reach the handler. *)
Example convert_empty_format :
  (Api.post_convert (sample_env 0 (Opens None)) (sample_upload "clip.mp4")
     (Some "") empty_state).1
  = JSONResponse 500
      [("detail",
        "Error: No audio track found in 'uploads/00000000-0000-4000-8000-000000000000_clip.mp4'")].
Proof. by vm_compute. Qed.

Example convert_without_upload :
  Api.post_convert (sample_env 0 (Opens None))
    {| Api.filename := None; Api.body := "" |} (Some "mp3") empty_state
  = (UnprocessableEntity, empty_state).
Proof. reflexivity. Qed.

Example get_on_post_route :
  Api.get "/convert" = JSONResponse 405 [("detail", "Method Not Allowed")]
  ∧ Api.get "/nowhere" = JSONResponse 404 [("detail", "Not Found")].
Proof. by vm_compute. Qed.

(** * The claims *)

(** ** C1: removal of the scratch upload *)

(** C1, amended. For every request to [/convert] that passes validation and
    whose upload is written to the scratch path, no file exists at the
    scratch path once the response is produced, whether the extraction
    succeeded or failed. *)
Theorem convert_removes_scratch env file format declared σ :
  Str.lower format ∈ Api.OUTPUT_FORMATS ->
  Api.filename file = Some declared ->
  Api.allowed_file declared = true ->
  save env = Saved ->
  files (Api.post_convert env file (Some format) σ).2
    !! Api.video_path env declared = None.
Proof.
  intros Hf Hn Ha Hs.
  destruct (extraction_failure
              (State (<[Api.video_path env declared := Api.body file]> (files σ))
                     (stdout σ))
              (clip env) (Api.video_path env declared)) as [err|] eqn:E.
  - rewrite (convert_saved_failure _ _ _ declared _ err) by done.
    apply lookup_delete_eq.
  - apply extraction_failure_writes in E as [_ [data Hc]].
    rewrite (convert_saved_success _ _ _ declared _ data) by done. cbn [snd files].
    rewrite lookup_insert_ne by apply api_paths_differ.
    apply lookup_delete_eq.
Qed.

Lemma convert_removes_scratch_witness :
  files (Api.post_convert (sample_env 42 (Opens None)) (sample_upload "my clip.mp4")
           (Some "mp3") empty_state).2
    !! Api.video_path (sample_env 42 (Opens None)) "my clip.mp4" = None.
Proof.
  apply (convert_removes_scratch (sample_env 42 (Opens None))
           (sample_upload "my clip.mp4") "mp3" "my clip.mp4" empty_state).
  - apply (bool_decide_unpack _). vm_compute. exact I.
  - reflexivity.
  - vm_compute. reflexivity.
  - reflexivity.
Defined.

(** C1 as stated fails in [app.py]: after [/extract-audio] has answered,
    the scratch file is still there, on the success path and on the failure
    path alike. *)
Lemma extract_audio_api_keeps_scratch :
  let request := sample_request "clip.mp4" "VIDEO" "mp3" in
  let ok := App.post_extract_audio fold_ascii
              (sample_env 0 (Opens (Some (Writes "AUDIO")))) request empty_state in
  let ko := App.post_extract_audio fold_ascii
              (sample_env 0 (Opens None)) request empty_state in
  App.video_path fold_ascii "clip.mp4" = "uploads/clip.mp4"
  ∧ status_of ok.1 = 200 ∧ files ok.2 !! "uploads/clip.mp4" = Some "VIDEO"
  ∧ status_of ko.1 = 500 ∧ files ko.2 !! "uploads/clip.mp4" = Some "VIDEO".
Proof. vm_compute. repeat split; reflexivity. Qed.

(** ** C2: the per-request token *)

(** C2, amended. In [/convert] the UUID drawn for the request is embedded,
    printed, in the scratch path and in the output path, and two requests
    whose UUIDs differ never share a scratch path or an output path,
    whatever their filenames and formats. *)
Theorem convert_paths_embed_token env1 env2 declared1 declared2 format1 format2 :
  Uuid.uuid4 (urandom16 env1) ≠ Uuid.uuid4 (urandom16 env2) ->
  Api.video_path env1 declared1
    = "uploads/" +:+ Uuid.str (Uuid.uuid4 (urandom16 env1)) +:+ "_"
        +:+ Api.sanitize declared1
  ∧ Api.audio_path env1 declared1 format1
    = "outputs/" +:+ Uuid.str (Uuid.uuid4 (urandom16 env1)) +:+ "_"
        +:+ Api.base_filename declared1 +:+ "." +:+ format1
  ∧ Api.video_path env1 declared1 ≠ Api.video_path env2 declared2
  ∧ Api.audio_path env1 declared1 format1 ≠ Api.audio_path env2 declared2 format2.
Proof.
  intros Hne. rewrite !api_video_path_eq, !api_audio_path_eq.
  unfold Api.unique_id.
  assert (String.length (Uuid.str (Uuid.uuid4 (urandom16 env1)))
          = String.length (Uuid.str (Uuid.uuid4 (urandom16 env2))))
    as Hlen by (by rewrite !length_uuid_str).
  repeat split; intros H; apply (inj (String.append "uploads/")) in H
    || apply (inj (String.append "outputs/")) in H;
    apply append_inj_length in H as [H _]; try done;
    by apply uuid_str_inj in H.
Qed.

Lemma convert_paths_embed_token_witness :
  Api.video_path (sample_env 1 (Opens None)) "clip.mp4"
    ≠ Api.video_path (sample_env 2 (Opens None)) "clip.mp4"
  ∧ Api.audio_path (sample_env 1 (Opens None)) "clip.mp4" "mp3"
    ≠ Api.audio_path (sample_env 2 (Opens None)) "clip.mp4" "mp3".
Proof.
  apply (convert_paths_embed_token (sample_env 1 (Opens None))
           (sample_env 2 (Opens None)) "clip.mp4" "clip.mp4" "mp3" "mp3").
  vm_compute. discriminate.
Defined.

(** C2 as stated fails in [app.py]: no token is drawn, the paths depend on
    the filename and the format alone, and a second upload of the same name
    overwrites the scratch file of the first. *)
Lemma extract_audio_api_paths_collide :
  let first := sample_request "clip.mp4" "FIRST" "mp3" in
  let second := sample_request "clip.mp4" "SECOND" "mp3" in
  let σ1 := (App.post_extract_audio fold_ascii
               (sample_env 1 (Opens (Some (Writes "A1")))) first empty_state).2 in
  let σ2 := (App.post_extract_audio fold_ascii
               (sample_env 2 (Opens (Some (Writes "A2")))) second σ1).2 in
  files σ1 !! "uploads/clip.mp4" = Some "FIRST"
  ∧ files σ1 !! "audio_outputs/clip.mp3" = Some "A1"
  ∧ files σ2 !! "uploads/clip.mp4" = Some "SECOND"
  ∧ files σ2 !! "audio_outputs/clip.mp3" = Some "A2".
Proof. vm_compute. repeat split; reflexivity. Qed.

(** ** C3: the output format check *)

(** C3, amended. For every request to [/convert] whose format is not
    empty and equals none of mp3, wav, ogg, aac when case is ignored, the
    response is a client error and the process state is left as it was, so
    nothing is written: 400 "Unsupported output format" when the request
    carries an upload, the framework's 422 when it does not.  (An empty
    format never reaches the check: the framework replaces it by mp3.) *)
Theorem convert_rejects_unsupported_format env file format σ :
  format ≠ "" ->
  (∀ f, f ∈ Api.OUTPUT_FORMATS -> Str.lower format ≠ Str.lower f) ->
  Api.post_convert env file (Some format) σ
  = (match Api.filename file with
     | Some _ => JSONResponse 400 [("detail", "Unsupported output format: " +:+ format)]
     | None => UnprocessableEntity
     end, σ).
Proof.
  intros Hfmt Hne. unfold Api.post_convert. rewrite (form_value_nonempty _ Hfmt).
  destruct (Api.filename file) eqn:Hn; [|done].
  unfold Api.convert_video_to_audio. rewrite bool_decide_eq_false_2; [done|].
  intros Hin. apply (Hne _ Hin). by rewrite (lower_output_formats _ Hin).
Qed.

Lemma convert_rejects_unsupported_format_witness :
  Api.post_convert (sample_env 7 (Opens None)) (sample_upload "clip.mp4")
    (Some "FLAC") empty_state
  = (JSONResponse 400 [("detail", "Unsupported output format: FLAC")], empty_state).
Proof.
  apply (convert_rejects_unsupported_format (sample_env 7 (Opens None))
           (sample_upload "clip.mp4") "FLAC" empty_state).
  - discriminate.
  - intros f Hf. unfold Api.OUTPUT_FORMATS in Hf.
    rewrite !elem_of_cons, elem_of_nil in Hf.
    destruct Hf as [->|[->|[->|[->|[]]]]]; vm_compute; discriminate.
Defined.

(** C3 as stated fails in [app.py]: the format is not checked. A request
    for the format "exe" is saved and handed to the library; the answer is
    200 when the library writes the file and 500 when it raises, never a
    client error, and the scratch file is on disk either way. *)
Lemma extract_audio_api_accepts_any_format :
  let request := sample_request "clip.mp4" "VIDEO" "exe" in
  let ok := App.post_extract_audio fold_ascii
              (sample_env 0 (Opens (Some (Writes "AUDIO")))) request empty_state in
  let ko := App.post_extract_audio fold_ascii
              (sample_env 0 (Opens (Some (WriteRaises "unknown codec"))))
              request empty_state in
  (Str.lower "exe" ∉ Api.OUTPUT_FORMATS)
  ∧ ok.1 = JSONResponse 200 [("message", "Audio extracted successfully");
                             ("audio_file", "audio_outputs/clip.exe")]
  ∧ files ok.2 !! "uploads/clip.mp4" = Some "VIDEO"
  ∧ ko.1 = JSONResponse 500 [("error", "Failed to extract audio")]
  ∧ files ko.2 !! "uploads/clip.mp4" = Some "VIDEO".
Proof.
  cbv zeta. split; [|vm_compute; repeat split; reflexivity].
  intros Hin. by apply (bool_decide_pack _) in Hin.
Qed.

(** ** C4: the declared filename check *)

(** C4, amended. For every request to [/convert] that carries an upload
    whose declared filename is empty or has no extension (the text after its
    last dot, case ignored) among mp4, avi, mov, mkv, webm, the response is
    a client error 400 and nothing is written: "Invalid file format" when
    the requested format is supported (an absent or empty format counts as
    mp3), "Unsupported output format" otherwise, since the format is
    checked first. *)
Theorem convert_rejects_bad_filename env file format name σ :
  Api.filename file = Some name ->
  bad_filename name ->
  Api.post_convert env file format σ
  = (JSONResponse 400
       [("detail",
         if bool_decide (Str.lower (Api.form_value format) ∈ Api.OUTPUT_FORMATS)
         then "Invalid file format. Allowed formats: "
              +:+ Str.join ", " (set_order env)
         else "Unsupported output format: " +:+ Api.form_value format)],
     σ).
Proof.
  intros Hn Hbad%bad_filename_refused.
  unfold Api.post_convert, Api.convert_video_to_audio. rewrite Hn.
  destruct (bool_decide _); [|done]. cbn [negb from_option id]. by rewrite Hbad.
Qed.

Lemma convert_rejects_bad_filename_witness :
  Api.post_convert (sample_env 7 (Opens None)) (sample_upload "notes.txt")
    (Some "mp3") empty_state
  = (JSONResponse 400
       [("detail", "Invalid file format. Allowed formats: mp4, avi, mov, mkv, webm")],
     empty_state).
Proof.
  apply (convert_rejects_bad_filename (sample_env 7 (Opens None))
           (sample_upload "notes.txt") (Some "mp3") "notes.txt" empty_state).
  - reflexivity.
  - right. intros ext Hext%has_extension_rsplit Hin. vm_compute in Hext.
    injection Hext as <-. by apply (bool_decide_pack _) in Hin.
Defined.

(** C4 as stated fails in [app.py]: only the empty filename is refused. A
    file named "notes.txt" is saved and handed to the library; the answer is
    200 when the library writes the audio and 500 when it raises, never a
    client error. *)
Lemma extract_audio_api_accepts_any_extension :
  let request := sample_request "notes.txt" "TEXT" "mp3" in
  let ok := App.post_extract_audio fold_ascii
              (sample_env 0 (Opens (Some (Writes "AUDIO")))) request empty_state in
  let ko := App.post_extract_audio fold_ascii
              (sample_env 0 (OpenRaises "not a video")) request empty_state in
  (∀ ext, has_extension "notes.txt" ext -> Str.lower ext ∉ Api.ALLOWED_EXTENSIONS)
  ∧ ok.1 = JSONResponse 200 [("message", "Audio extracted successfully");
                             ("audio_file", "audio_outputs/notes.mp3")]
  ∧ ko.1 = JSONResponse 500 [("error", "Failed to extract audio")]
  ∧ files ko.2 !! "uploads/notes.txt" = Some "TEXT".
Proof.
  cbv zeta. split; [|vm_compute; repeat split; reflexivity].
  intros ext Hext%has_extension_rsplit Hin. vm_compute in Hext.
  injection Hext as <-. by apply (bool_decide_pack _) in Hin.
Qed.

(** ** C5: how extraction failures are reported *)

(** C5, amended. In [/convert], the extraction step reports a missing input
    path as an input-not-found error, a clip without audio stream as a
    no-audio-track error, and any other failure with the message of the
    underlying exception attached; and each failure of a saved upload is
    answered with a server error 500 whose detail is that message. *)
Theorem convert_reports_extraction_failure :
  (∀ lib video_path audio_path σ err,
     extraction_failure σ lib video_path = Some err ->
     Api.extract_audio_moviepy lib video_path audio_path σ
     = (Return (false, error_message err video_path), σ))
  ∧ (∀ env file format declared σ err,
       Str.lower format ∈ Api.OUTPUT_FORMATS ->
       Api.filename file = Some declared ->
       Api.allowed_file declared = true ->
       save env = Saved ->
       extraction_failure
         (State (<[Api.video_path env declared := Api.body file]> (files σ)) (stdout σ))
         (clip env) (Api.video_path env declared) = Some err ->
       (Api.post_convert env file (Some format) σ).1
       = JSONResponse 500
           [("detail", error_message err (Api.video_path env declared))]).
Proof.
  split.
  - intros. by apply extract_moviepy_failure.
  - intros env file format declared σ err Hf Hn Ha Hs Herr.
    by rewrite (convert_saved_failure _ _ _ declared _ err).
Qed.

Lemma convert_reports_extraction_failure_witness :
  Api.extract_audio_moviepy (Opens None) "uploads/x.mp4" "outputs/x.mp3" empty_state
  = (Return (false, "Error: Video file not found at 'uploads/x.mp4'"), empty_state)
  ∧ (Api.post_convert (sample_env 3 (OpenRaises "moov atom not found"))
       (sample_upload "clip.mp4") (Some "wav") empty_state).1
    = JSONResponse 500
        [("detail", "An error occurred during audio extraction: moov atom not found")].
Proof.
  destruct convert_reports_extraction_failure as [Hstep Hreq]. split.
  - apply (Hstep (Opens None) "uploads/x.mp4" "outputs/x.mp3" empty_state InputNotFound).
    reflexivity.
  - apply (Hreq (sample_env 3 (OpenRaises "moov atom not found"))
             (sample_upload "clip.mp4") "wav" "clip.mp4" empty_state
             (ExtractionFailed "moov atom not found")).
    + apply (bool_decide_unpack _). vm_compute. exact I.
    + reflexivity.
    + vm_compute. reflexivity.
    + reflexivity.
    + vm_compute. reflexivity.
Defined.

(** C5 as stated fails in [app.py]: a clip without audio and a clip the
    library cannot open get the very same answer, which carries neither
    cause; the exception text only goes to standard output. *)
Lemma extract_audio_api_hides_cause :
  let request := sample_request "clip.mp4" "VIDEO" "mp3" in
  let silent := App.post_extract_audio fold_ascii
                  (sample_env 0 (Opens None)) request empty_state in
  let broken := App.post_extract_audio fold_ascii
                  (sample_env 0 (OpenRaises "moov atom not found")) request
                  empty_state in
  silent.1 = JSONResponse 500 [("error", "Failed to extract audio")]
  ∧ broken.1 = JSONResponse 500 [("error", "Failed to extract audio")]
  ∧ stdout broken.2 = ["Error: moov atom not found"].
Proof. vm_compute. repeat split; reflexivity. Qed.

(** ** C6: the health route *)

(** C6, evaluated on the code. Both route decorators written above
    [welcome] apply to it, so [GET /health] is answered by [welcome]: status
    200 with the welcome message, not with the body of [health_check], which
    no route reaches. *)
Theorem get_health_serves_welcome :
  Api.get "/health" = JSONResponse 200 Api.welcome
  ∧ Api.get "/health" ≠ JSONResponse 200 [("status", "healthy")]
  ∧ Forall (fun r => r.2 ≠ Api.health_check_fn) Api.routes.
Proof.
  split; [reflexivity|]. split; [discriminate|].
  repeat constructor; discriminate.
Qed.

(** ** C7: whitespace in the declared filename *)

(** C7, amended. In [/convert] every space of the declared filename, and
    no other character, is replaced by an underscore before the scratch path
    is built, so the scratch path contains no space; in [/extract-audio] the
    scratch path contains no whitespace character at all. *)
Theorem scratch_path_without_spaces nfkd env declared :
  Str.chars (Api.sanitize declared)
    = (fun c => if decide (c = " "%char) then "_"%char else c) <$> Str.chars declared
  ∧ Str.contains " " (Api.video_path env declared) = false
  ∧ Str.all not_space (App.video_path nfkd declared) = true.
Proof.
  split; [|split].
  - unfold Api.sanitize. induction declared as [|a s IH]; [done|].
    cbn. f_equal. apply IH.
  - rewrite api_video_path_eq, !contains_append.
    unfold Api.unique_id, Api.sanitize.
    rewrite (all_contains uuid_char " " _ eq_refl (all_uuid_str _)).
    by rewrite replace_removes.
  - rewrite app_video_path_eq, all_append.
    rewrite (all_impl _ _ _ ascii_safe_not_space (secure_filename_safe _ _)).
    reflexivity.
Qed.

(** C7 as stated fails in [api.py]: a tab in the declared filename passes
    the input check and reaches the scratch path unchanged. *)
Lemma convert_keeps_tab :
  let declared := "a" +:+ String tab "b.mp4" in
  Str.is_space tab = true
  ∧ Api.allowed_file declared = true
  ∧ Api.sanitize declared = declared
  ∧ Str.contains tab (Api.video_path (sample_env 0 (Opens None)) declared) = true.
Proof. vm_compute. repeat split; reflexivity. Qed.

(** ** C8: the successful response of [/convert] *)




(** ** C9: the extraction wrappers never raise *)

(** C9. For every input, [extract_audio_moviepy] returns a pair of a flag
    and a message and [extract_audio] returns a boolean; neither raises.
    The flag is true exactly when the input exists (for the first) and the
    library wrote the audio; every exception of the library ends in a
    false result. *)
Theorem extraction_wrappers_never_raise lib video_path audio_path σ :
  (∃ message σ',
     Api.extract_audio_moviepy lib video_path audio_path σ
     = (Return (bool_decide (is_Some (files σ !! video_path)) && writes_audio lib,
                message), σ'))
  ∧ (∃ σ',
       App.extract_audio lib video_path audio_path σ
       = (Return (writes_audio lib), σ')).
Proof.
  split.
  - destruct (extraction_failure σ lib video_path) as [err|] eqn:E.
    + rewrite (extract_moviepy_failure _ _ _ _ _ E). do 2 eexists. f_equal. f_equal.
      unfold extraction_failure in E.
      destruct (files σ !! video_path); [|done].
      by destruct lib as [msg|[[data|msg]|]].
    + apply extraction_failure_writes in E as [Hin [data ->]].
      rewrite extract_moviepy_success by done. do 2 eexists.
      by rewrite bool_decide_eq_true_2.
  - rewrite extract_audio_run. destruct lib as [msg|[[data|msg]|]]; eauto.
Qed.

(** ** C10: the scratch path of [/extract-audio] *)

(** C10, amended. In [/extract-audio] the declared filename goes through
    [secure_filename] before the scratch path is built: the path is the
    upload directory, a separator, and a name made of ASCII letters,
    digits, underscores, dots and dashes that does not begin with a dot.
    It is a direct child of the upload directory exactly when that name is
    not empty, and no declared filename makes it leave the directory. *)
Theorem extract_audio_scratch_path_confined nfkd declared :
  let name := Werkzeug.secure_filename nfkd declared in
  App.video_path nfkd declared = App.UPLOAD_DIR +:+ "/" +:+ name
  ∧ Str.all Werkzeug.ascii_safe name = true
  ∧ Str.startswith "." name = false
  ∧ is_direct_child App.UPLOAD_DIR (App.video_path nfkd declared)
    = negb (bool_decide (name = "")).
Proof.
  cbv zeta. pose proof (secure_filename_safe nfkd declared) as Hsafe.
  pose proof (secure_filename_head nfkd declared) as Hhead.
  split; [apply app_video_path_eq|]. split; [done|]. split; [done|].
  rewrite app_video_path_eq. unfold is_direct_child.
  change ("uploads/" +:+ ?n) with ((App.UPLOAD_DIR +:+ "/") +:+ n).
  rewrite strip_prefix_append.
  rewrite (all_contains Werkzeug.ascii_safe "/" _ eq_refl Hsafe).
  destruct (Werkzeug.secure_filename nfkd declared) as [|a r]; [done|].
  cbn in Hhead. apply bool_decide_eq_false in Hhead.
  rewrite !bool_decide_eq_false_2; [done|congruence..].
Qed.

(** C10 as stated fails on a declared filename that sanitizes to the empty
    name, such as "..": it passes the empty-filename check, and the scratch
    path is then the upload directory itself, not a child of it. *)
Lemma extract_audio_scratch_path_not_child :
  bool_decide (".." = "") = false
  ∧ Werkzeug.secure_filename fold_ascii ".." = ""
  ∧ App.video_path fold_ascii ".." = "uploads/"
  ∧ is_direct_child App.UPLOAD_DIR (App.video_path fold_ascii "..") = false.
Proof. vm_compute. repeat split; reflexivity. Qed.

(** * Further properties of the two services *)

Lemma form_value_idem format :
  Api.form_value (Some (Api.form_value format)) = Api.form_value format.
Proof. by destruct format as [[|a s]|]. Qed.

Lemma post_convert_form_value env file format σ :
  Api.post_convert env file format σ
  = Api.post_convert env file (Some (Api.form_value format)) σ.
Proof. unfold Api.post_convert. by rewrite form_value_idem. Qed.

Lemma convert_save_failed env file format declared σ msg :
  Str.lower format ∈ Api.OUTPUT_FORMATS ->
  Api.filename file = Some declared ->
  Api.allowed_file declared = true ->
  save_failure (save env) = Some msg ->
  Api.post_convert env file (Some format) σ
  = (JSONResponse 500 [("detail", "Failed to save uploaded file: " +:+ msg)],
     State (after_save (save env) (Api.video_path env declared) (Api.body file)
              (files σ))
           (stdout σ)).
Proof.
  intros Hf Hn Ha Hs. unfold Api.post_convert.
  rewrite Hn, (form_value_supported _ Hf).
  rewrite (convert_validated _ _ _ declared) by done. destruct σ as [fs out].
  destruct (save env) as [|m|n m]; [done|..]; injection Hs as ->; reflexivity.
Qed.

Lemma convert_refused env file format σ :
  Api.filename file ≠ None ->
  bool_decide (Str.lower (Api.form_value format) ∈ Api.OUTPUT_FORMATS)
  && Str.truthy (Api.filename file)
  && Api.allowed_file (default "" (Api.filename file)) = false ->
  Api.post_convert env file format σ
  = (JSONResponse 400
       [("detail",
         if bool_decide (Str.lower (Api.form_value format) ∈ Api.OUTPUT_FORMATS)
         then "Invalid file format. Allowed formats: "
              +:+ Str.join ", " (set_order env)
         else "Unsupported output format: " +:+ Api.form_value format)],
     σ).
Proof.
  intros Hn H. unfold Api.post_convert, Api.convert_video_to_audio.
  destruct (Api.filename file) as [name|] eqn:E; [clear Hn|done].
  cbn [from_option id default] in *.
  destruct (bool_decide _); [|done]. cbn [negb].
  destruct (Str.truthy _); [|done]. cbn [negb orb andb] in *. by rewrite H.
Qed.

Lemma truthy_Some o : Str.truthy o = true -> ∃ s, o = Some s.
Proof. destruct o; [eauto|done]. Qed.

Lemma saved_failure_state env file declared :
  ∀ σ, files (State (<[Api.video_path env declared := Api.body file]> (files σ)) (stdout σ))
         !! Api.video_path env declared = Some (Api.body file).
Proof. intros. cbn. apply lookup_insert_eq. Qed.

(** The four ways a request to [/convert] can go. *)
Lemma convert_cases env file format σ :
  (Api.filename file = None
   ∧ Api.post_convert env file format σ = (UnprocessableEntity, σ))
  ∨ (∃ detail,
       Api.post_convert env file format σ
       = (JSONResponse 400 [("detail", detail)], σ)
       ∧ Str.strip_prefix "Error: Video file not found" detail = None)
  ∨ (∃ declared msg,
       Api.filename file = Some declared
       ∧ Api.post_convert env file format σ
         = (JSONResponse 500 [("detail", msg)],
            State (scratch_after (save env) (Api.video_path env declared)
                     (Api.body file) (files σ))
                  (stdout σ))
       ∧ Str.strip_prefix "Error: Video file not found" msg = None)
  ∨ (∃ declared data,
       Api.filename file = Some declared
       ∧ Api.post_convert env file format σ
         = (FileResponse (Api.audio_path env declared (Api.form_value format))
              (Api.base_filename declared +:+ "." +:+ Api.form_value format)
              ("audio/" +:+ Api.form_value format),
            State (<[Api.audio_path env declared (Api.form_value format) := data]>
                     (delete (Api.video_path env declared) (files σ))) (stdout σ))).
Proof.
  destruct (Api.filename file) as [name|] eqn:Hname.
  2: { left. split; [done|]. unfold Api.post_convert. by rewrite Hname. }
  right.
  destruct (bool_decide (Str.lower (Api.form_value format) ∈ Api.OUTPUT_FORMATS)
            && Str.truthy (Api.filename file)
            && Api.allowed_file (default "" (Api.filename file))) eqn:Hv.
  2: { left. rewrite convert_refused by (done || by rewrite Hname).
       eexists. split; [done|]. by destruct (bool_decide _). }
  rewrite post_convert_form_value. generalize dependent (Api.form_value format).
  intros fmt Hv.
  apply andb_true_iff in Hv as [[Hf Ht]%andb_true_iff Ha].
  apply bool_decide_eq_true in Hf. rewrite Hname in Ha. cbn in Ha. right.
  destruct (save_failure (save env)) as [msg|] eqn:Hs.
  { left. exists name, ("Failed to save uploaded file: " +:+ msg).
    split; [done|]. split; [|done].
    rewrite (convert_save_failed _ _ _ name _ msg) by done.
    by destruct (save env). }
  assert (save env = Saved) as Hsaved by (by destruct (save env)).
  destruct (extraction_failure
              (State (<[Api.video_path env name := Api.body file]> (files σ))
                     (stdout σ))
              (clip env) (Api.video_path env name)) as [err|] eqn:E.
  - left. exists name, (error_message err (Api.video_path env name)).
    split; [done|]. rewrite (convert_saved_failure _ _ _ name _ err) by done.
    rewrite Hsaved. split; [done|].
    unfold extraction_failure in E. rewrite saved_failure_state in E.
    generalize (Api.video_path env name). intros vp.
    destruct (clip env) as [m|[[d|m]|]]; try discriminate;
      injection E as <-; reflexivity.
  - right. apply extraction_failure_writes in E as [_ [data Hc]].
    exists name, data. split; [done|].
    by rewrite (convert_saved_success _ _ _ name _ data).
Qed.

Lemma extraction_failure_saved vp content fs out lib :
  extraction_failure (State (<[vp := content]> fs) out) lib vp
  = match lib with
    | OpenRaises msg | Opens (Some (WriteRaises msg)) => Some (ExtractionFailed msg)
    | Opens None => Some NoAudioTrack
    | Opens (Some (Writes _)) => None
    end.
Proof. unfold extraction_failure. cbn [files]. by rewrite lookup_insert_eq. Qed.


(** X6. The "Video file not found" branch of the extraction step is dead
    code for [/convert]: whatever the request, the disk and the faults, the
    response never carries that message, because the extraction only runs
    after the scratch file has been written. *)
Theorem convert_never_misses_input env file format σ :
  reports_missing_input (Api.post_convert env file format σ).1 = false.
Proof.
  destruct (convert_cases env file format σ)
    as [[_ ->]|[(d & -> & Hd)|[(dec & msg & _ & -> & Hmsg)|(dec & data & _ & ->)]]];
    unfold reports_missing_input; cbn [fst]; rewrite ?Hd, ?Hmsg; reflexivity.
Qed.

(** X4. When writing the upload fails in [/convert], the answer is 500
    "Failed to save uploaded file" with the exception text, the extraction
    is not attempted, nothing is printed and nothing is cleaned up: if the
    failure came after [open] had created the file, the scratch file stays
    on disk with the bytes written before the failure; otherwise the files
    are as before. *)
Theorem convert_reports_save_failure env file format declared σ msg :
  Str.lower format ∈ Api.OUTPUT_FORMATS ->
  Api.filename file = Some declared ->
  Api.allowed_file declared = true ->
  save_failure (save env) = Some msg ->
  Api.post_convert env file (Some format) σ
  = (JSONResponse 500 [("detail", "Failed to save uploaded file: " +:+ msg)],
     State (after_save (save env) (Api.video_path env declared) (Api.body file)
              (files σ))
           (stdout σ)).
Proof. apply convert_save_failed. Qed.

Lemma convert_frame env file format σ p :
  p ≠ Api.video_path env (default "" (Api.filename file)) ->
  p ≠ Api.audio_path env (default "" (Api.filename file)) (Api.form_value format) ->
  files (Api.post_convert env file format σ).2 !! p = files σ !! p
  ∧ stdout (Api.post_convert env file format σ).2 = stdout σ.
Proof.
  intros Hv Ha.
  destruct (convert_cases env file format σ)
    as [[_ ->]|[(d & -> & _)|[(dec & msg & Hn & -> & _)|(dec & data & Hn & ->)]]];
    [done|done|rewrite Hn in *; cbn [from_option id default] in *..];
    cbn [snd files stdout].
  - split; [|done]. destruct (save env); cbn [scratch_after after_save];
      by rewrite ?lookup_delete_ne, ?lookup_insert_ne.
  - split; [|done]. by rewrite lookup_insert_ne, lookup_delete_ne.
Qed.

Lemma api_paths_distinct env1 env2 d1 d2 f1 f2 :
  Uuid.uuid4 (urandom16 env1) ≠ Uuid.uuid4 (urandom16 env2) ->
  Api.video_path env1 d1 ≠ Api.video_path env2 d2
  ∧ Api.audio_path env1 d1 f1 ≠ Api.audio_path env2 d2 f2.
Proof.
  intros Hne. rewrite !api_video_path_eq, !api_audio_path_eq. unfold Api.unique_id.
  assert (String.length (Uuid.str (Uuid.uuid4 (urandom16 env1)))
          = String.length (Uuid.str (Uuid.uuid4 (urandom16 env2))))
    as Hlen by (by rewrite !length_uuid_str).
  split; intros H; apply (inj (String.append "uploads/")) in H
    || apply (inj (String.append "outputs/")) in H;
    apply append_inj_length in H as [H _]; try done;
    by apply uuid_str_inj in H.
Qed.

Lemma api_paths_cross env1 env2 d1 d2 f :
  Api.audio_path env1 d1 f ≠ Api.video_path env2 d2.
Proof. rewrite api_video_path_eq, api_audio_path_eq. discriminate. Qed.

(** X5. [/convert] writes and removes only at its own two paths: every
    other file is after the request what it was before, and nothing is
    printed.  The output path is the one of the format the handler
    receives, "mp3" when the field is absent or empty. *)
Theorem convert_touches_two_paths env file format σ p :
  p ≠ Api.video_path env (default "" (Api.filename file)) ->
  p ≠ Api.audio_path env (default "" (Api.filename file)) (Api.form_value format) ->
  files (Api.post_convert env file format σ).2 !! p = files σ !! p
  ∧ stdout (Api.post_convert env file format σ).2 = stdout σ.
Proof. apply convert_frame. Qed.

(** X18. A request to [/convert] leaves the scratch file and the output
    file of any request with another UUID untouched, whatever the two
    requests' filenames and formats. *)
Theorem convert_spares_other_tokens env1 env2 declared1 format1 file2 format2 σ :
  Uuid.uuid4 (urandom16 env1) ≠ Uuid.uuid4 (urandom16 env2) ->
  files (Api.post_convert env2 file2 format2 σ).2 !! Api.video_path env1 declared1
    = files σ !! Api.video_path env1 declared1
  ∧ files (Api.post_convert env2 file2 format2 σ).2
      !! Api.audio_path env1 declared1 format1
    = files σ !! Api.audio_path env1 declared1 format1.
Proof.
  intros Hne.
  destruct (api_paths_distinct env1 env2 declared1 (default "" (Api.filename file2))
              format1 (Api.form_value format2) Hne) as [Hv Ha].
  split; apply convert_frame.
  - exact Hv.
  - apply not_eq_sym, api_paths_cross.
  - apply api_paths_cross.
  - exact Ha.
Qed.

(** [os.path.splitext] on a plain file name: no separator, a first
    character that is not a dot, and a dot-free suffix after the last dot. *)
Lemma path_splitext_plain pre ext :
  pre ≠ "" -> Str.startswith "." pre = false ->
  Str.contains "/" pre = false -> Str.contains "/" ext = false ->
  Str.contains "." ext = false ->
  Os.path_splitext (pre +:+ "." +:+ ext) = (pre, "." +:+ ext).
Proof.
  intros Hne Hhead Hsep Hsep' Hdot.
  change ("." +:+ ext) with (String "." ext).
  unfold Os.path_splitext, Str.rfind. cbv zeta.
  rewrite (rindex_append _ _ _ Hdot).
  rewrite (contains_false_rindex "/" (pre +:+ String "." ext))
    by (rewrite contains_append, Hsep; simpl; by rewrite Hsep').
  destruct pre as [|a pre]; [done|].
  replace (Z.of_nat (String.length (String a pre)) >? -1) with true
    by (symmetry; apply Z.gtb_lt; lia).
  replace (Z.to_nat (Z.of_nat (String.length (String a pre)) - (-1 + 1)))
    with (S (String.length pre)) by (simpl; lia).
  rewrite Nat2Z.id. change (Z.to_nat (-1 + 1)) with O.
  cbn [Os.skip_leading_dots].
  assert (String.eqb (Str.at_index 0 (String a pre +:+ String "." ext)) "." = false)
    as ->.
  { rewrite append_cons. cbn. simpl in Hhead. apply bool_decide_eq_false in Hhead.
    destruct (Ascii.eqb_spec a "."); [congruence|done]. }
  cbn [negb]. change (S (String.length pre)) with (String.length (String a pre)).
  by rewrite take_append_length, drop_append_length.
Qed.

(** X7. For a plain declared filename (no path separator, not starting
    with a dot) that ends in a dot and a suffix, the base name used for the
    download name and the output path is the part before the last dot, with
    its spaces replaced by underscores. *)
Theorem convert_base_filename pre ext :
  pre ≠ "" -> Str.startswith "." pre = false ->
  Str.contains "/" pre = false -> Str.contains "/" ext = false ->
  Str.contains "." ext = false ->
  Api.base_filename (pre +:+ "." +:+ ext) = Api.sanitize pre.
Proof.
  intros Hne Hhead Hsep Hsep' Hdot. unfold Api.base_filename, Api.sanitize.
  rewrite !replace_append. change (Str.replace " " "_" ".") with ".".
  rewrite path_splitext_plain; [done|..].
  - by destruct pre.
  - destruct pre as [|a pre]; [done|]. simpl in *.
    apply bool_decide_eq_false in Hhead. apply bool_decide_eq_false.
    destruct (decide (a = " "%char)); congruence.
  - by rewrite replace_contains_other.
  - by rewrite replace_contains_other.
  - by rewrite replace_contains_other.
Qed.

Lemma convert_base_filename_witness :
  Api.base_filename ("my clip" +:+ "." +:+ "mp4") = Api.sanitize "my clip".
Proof.
  apply (convert_base_filename "my clip" "mp4"); [discriminate|reflexivity..].
Defined.

Lemma length_unique_id env : String.length (Api.unique_id env) = 36%nat.
Proof. apply length_uuid_str. Qed.

(** X8. The scratch path of [/convert] is a direct child of the upload
    directory exactly when the declared filename holds no path separator:
    replacing spaces does not neutralise ['/']. *)
Theorem convert_scratch_path_child env declared :
  is_direct_child Api.UPLOAD_FOLDER (Api.video_path env declared)
  = negb (Str.contains "/" declared).
Proof.
  rewrite api_video_path_eq. unfold is_direct_child.
  change ("uploads/" +:+ ?n) with ((Api.UPLOAD_FOLDER +:+ "/") +:+ n).
  rewrite strip_prefix_append.
  pose proof (length_unique_id env) as Hlen.
  pose proof (all_uuid_str (Uuid.uuid4 (urandom16 env))) as Hchars.
  fold (Api.unique_id env) in Hchars.
  rewrite !contains_append, (all_contains uuid_char "/" _ eq_refl Hchars).
  unfold Api.sanitize. rewrite replace_contains_other by done.
  generalize dependent (Api.unique_id env). intros uid Hlen _.
  rewrite !bool_decide_eq_false_2.
  - change (Str.contains "/" "_") with false.
    by destruct (Str.contains "/" declared).
  - intros E. apply (f_equal String.length) in E.
    rewrite length_append, Hlen in E. simpl in E. lia.
  - intros E. apply (f_equal String.length) in E.
    rewrite length_append, Hlen in E. simpl in E. lia.
  - intros E. apply (f_equal String.length) in E.
    rewrite length_append, Hlen in E. simpl in E. lia.
Qed.

(** X9. In both services the output path of a request is never its
    scratch path, so the library never writes over its input and the
    removal of the scratch file never removes the audio. *)
Theorem output_path_is_not_scratch_path nfkd env declared format :
  bool_decide (Api.audio_path env declared format = Api.video_path env declared)
  = false
  ∧ bool_decide (App.audio_path nfkd declared format = App.video_path nfkd declared)
    = false.
Proof.
  split; apply bool_decide_eq_false; [apply api_paths_differ|apply app_paths_differ].
Qed.

(** X16. The token of [/convert] is always 36 characters long, made of
    lower-case hexadecimal digits and dashes, and two tokens are equal
    exactly when the UUIDs they print are equal. *)
Theorem unique_id_format env1 env2 :
  String.length (Api.unique_id env1) = 36%nat
  ∧ Str.all uuid_char (Api.unique_id env1) = true
  ∧ (Api.unique_id env1 = Api.unique_id env2
     ↔ Uuid.uuid4 (urandom16 env1) = Uuid.uuid4 (urandom16 env2)).
Proof.
  split; [apply length_uuid_str|]. split; [apply all_uuid_str|].
  unfold Api.unique_id. split; [apply uuid_str_inj|by intros ->].
Qed.

(** X1. [allowed_file] accepts a name exactly when the name has a dot and
    the text after its last dot, lower-cased, is one of the allowed
    extensions. *)
Theorem allowed_file_characterised name :
  Api.allowed_file name = true
  ↔ ∃ ext, has_extension name ext ∧ Str.lower ext ∈ Api.ALLOWED_EXTENSIONS.
Proof. apply allowed_file_spec. Qed.

Lemma allowed_file_append pre ext :
  Str.contains "." ext = false ->
  Api.allowed_file (pre +:+ "." +:+ ext)
  = bool_decide (Str.lower ext ∈ Api.ALLOWED_EXTENSIONS).
Proof.
  intros Hdot. unfold Api.allowed_file.
  rewrite (has_extension_rsplit (pre +:+ "." +:+ ext) ext) by (by exists pre).
  rewrite contains_append. change ("." +:+ ext) with (String "." ext). simpl.
  by rewrite orb_true_r.
Qed.

(** X2. [allowed_file] looks at nothing but the extension, and at that
    only up to case: two names whose dot-free extensions agree when
    lower-cased get the same verdict, whatever stands before the last dot. *)
Theorem allowed_file_extension_only pre1 pre2 ext1 ext2 :
  Str.contains "." ext1 = false ->
  Str.contains "." ext2 = false ->
  Str.lower ext1 = Str.lower ext2 ->
  Api.allowed_file (pre1 +:+ "." +:+ ext1) = Api.allowed_file (pre2 +:+ "." +:+ ext2).
Proof. intros H1 H2 Heq. by rewrite !allowed_file_append, Heq. Qed.

Lemma allowed_file_extension_only_witness :
  Api.allowed_file ("clip" +:+ "." +:+ "mp4")
  = Api.allowed_file ("My Holiday.final" +:+ "." +:+ "MP4").
Proof.
  apply (allowed_file_extension_only "clip" "My Holiday.final" "mp4" "MP4");
    reflexivity.
Defined.

(** X10. [/extract-audio] answers 400 and touches nothing when the request
    has no "file" part ("No file provided") or the part's filename is empty
    ("No selected file"). *)
Theorem extract_audio_api_refuses_nameless nfkd env request σ :
  from_option App.filename "" (App.request_files request !! "file") = "" ->
  App.post_extract_audio nfkd env request σ
  = (JSONResponse 400
       [("error",
         match App.request_files request !! "file" with
         | None => "No file provided"
         | Some _ => "No selected file"
         end)],
     σ).
Proof.
  intros H. unfold App.post_extract_audio, App.extract_audio_api.
  destruct (App.request_files request !! "file") as [file|]; [|done].
  cbn in H. by rewrite bool_decide_eq_true_2.
Qed.

Lemma extract_audio_api_refuses_nameless_witness :
  App.post_extract_audio fold_ascii (sample_env 0 (Opens None))
    {| App.request_files := ∅; App.request_form := ∅ |} empty_state
  = (JSONResponse 400 [("error", "No file provided")], empty_state).
Proof.
  exact (extract_audio_api_refuses_nameless fold_ascii (sample_env 0 (Opens None))
           {| App.request_files := ∅; App.request_form := ∅ |} empty_state eq_refl).
Defined.

(** X11. When saving the upload fails in [/extract-audio], the exception
    is not caught: the answer is the framework's bare internal error, the
    extraction is not attempted and nothing is printed; if the failure came
    after the file was created, the scratch file stays with the bytes
    written before the failure. *)
Theorem extract_audio_api_save_failure nfkd env request file σ msg :
  App.request_files request !! "file" = Some file ->
  App.filename file ≠ "" ->
  save_failure (save env) = Some msg ->
  App.post_extract_audio nfkd env request σ
  = (InternalServerError,
     State (after_save (save env) (App.video_path nfkd (App.filename file))
              (App.stream file) (files σ))
           (stdout σ)).
Proof.
  intros Hfile Hname Hs. unfold App.post_extract_audio, App.extract_audio_api.
  rewrite Hfile, bool_decide_eq_false_2 by done. destruct σ as [fs out].
  destruct (save env) as [|m|n m]; [done|..]; reflexivity.
Qed.

Lemma extract_audio_api_save_failure_witness :
  App.post_extract_audio fold_ascii (failing_env (FailsAfterCreate 3 "disk full"))
    (sample_request "clip.mp4" "VIDEO" "mp3") empty_state
  = (InternalServerError, State {[ "uploads/clip.mp4" := "VID" ]} []).
Proof.
  exact (extract_audio_api_save_failure fold_ascii
           (failing_env (FailsAfterCreate 3 "disk full"))
           (sample_request "clip.mp4" "VIDEO" "mp3")
           {| App.filename := "clip.mp4"; App.stream := "VIDEO" |} empty_state
           "disk full" eq_refl ltac:(discriminate) eq_refl).
Defined.

(** X12. [/extract-audio] never removes what it saved: after any request
    whose upload was written, whatever the library did, the scratch path
    holds the uploaded bytes. *)
Theorem extract_audio_api_never_cleans nfkd env request file σ :
  App.request_files request !! "file" = Some file ->
  App.filename file ≠ "" ->
  save env = Saved ->
  files (App.post_extract_audio nfkd env request σ).2
    !! App.video_path nfkd (App.filename file) = Some (App.stream file).
Proof. apply extract_audio_api_scratch_remains. Qed.

Lemma extract_audio_api_never_cleans_witness :
  files (App.post_extract_audio fold_ascii (sample_env 0 (OpenRaises "bad file"))
           (sample_request "clip.mp4" "VIDEO" "mp3") empty_state).2
    !! App.video_path fold_ascii "clip.mp4" = Some "VIDEO".
Proof.
  apply (extract_audio_api_never_cleans fold_ascii (sample_env 0 (OpenRaises "bad file"))
           (sample_request "clip.mp4" "VIDEO" "mp3")
           {| App.filename := "clip.mp4"; App.stream := "VIDEO" |} empty_state).
  - vm_compute. reflexivity.
  - discriminate.
  - reflexivity.
Defined.

(** X13. When the library writes the audio, [/extract-audio] answers 200
    with the path "audio_outputs/<root>.<format>" (the root of the secured
    filename, the format as submitted, "mp3" when absent), and the file at
    that path holds what the library wrote. *)
Theorem extract_audio_api_success nfkd env request file σ data :
  App.request_files request !! "file" = Some file ->
  App.filename file ≠ "" ->
  save env = Saved ->
  clip env = Opens (Some (Writes data)) ->
  let output_format := default "mp3" (App.request_form request !! "output_format") in
  let root := (Os.path_splitext (Werkzeug.secure_filename nfkd (App.filename file))).1 in
  let artifact := "audio_outputs/" +:+ root +:+ "." +:+ output_format in
  (App.post_extract_audio nfkd env request σ).1
  = JSONResponse 200 [("message", "Audio extracted successfully");
                      ("audio_file", artifact)]
  ∧ files (App.post_extract_audio nfkd env request σ).2 !! artifact = Some data.
Proof.
  intros Hfile Hname Hs Hc. cbv zeta.
  rewrite (extract_audio_api_saved _ _ _ file) by done. cbv zeta. rewrite Hc.
  rewrite app_audio_path_eq. cbn [fst snd files]. split; [done|].
  apply lookup_insert_eq.
Qed.

Lemma extract_audio_api_success_witness :
  (App.post_extract_audio fold_ascii (sample_env 0 (Opens (Some (Writes "AUDIO"))))
     (sample_request "My Clip.mov" "VIDEO" "wav") empty_state).1
  = JSONResponse 200 [("message", "Audio extracted successfully");
                      ("audio_file", "audio_outputs/My_Clip.wav")].
Proof.
  apply (extract_audio_api_success fold_ascii
           (sample_env 0 (Opens (Some (Writes "AUDIO"))))
           (sample_request "My Clip.mov" "VIDEO" "wav")
           {| App.filename := "My Clip.mov"; App.stream := "VIDEO" |} empty_state
           "AUDIO").
  - vm_compute. reflexivity.
  - discriminate.
  - reflexivity.
  - reflexivity.
Defined.

(** X15. Every extraction failure of [/extract-audio] gets the same answer,
    500 "Failed to extract audio": whether the clip had no audio track or
    the library raised, and whatever the exception said, the response does
    not tell the cause. *)
Theorem extract_audio_api_failure nfkd env request file σ :
  App.request_files request !! "file" = Some file ->
  App.filename file ≠ "" ->
  save env = Saved ->
  writes_audio (clip env) = false ->
  (App.post_extract_audio nfkd env request σ).1
  = JSONResponse 500 [("error", "Failed to extract audio")].
Proof.
  intros Hfile Hname Hs Hw.
  rewrite (extract_audio_api_saved _ _ _ file) by done. cbv zeta.
  by destruct (clip env) as [m|[[d|m]|]].
Qed.

Lemma extract_audio_api_failure_witness :
  (App.post_extract_audio fold_ascii (sample_env 0 (OpenRaises "moov atom not found"))
     (sample_request "clip.mp4" "VIDEO" "mp3") empty_state).1
  = JSONResponse 500 [("error", "Failed to extract audio")].
Proof.
  apply (extract_audio_api_failure fold_ascii
           (sample_env 0 (OpenRaises "moov atom not found"))
           (sample_request "clip.mp4" "VIDEO" "mp3")
           {| App.filename := "clip.mp4"; App.stream := "VIDEO" |} empty_state).
  - vm_compute. reflexivity.
  - discriminate.
  - reflexivity.
  - reflexivity.
Defined.

Lemma splitext_root_secure nfkd declared :
  let root := (Os.path_splitext (Werkzeug.secure_filename nfkd declared)).1 in
  Str.all Werkzeug.ascii_safe root = true ∧ Str.startswith "." root = false.
Proof.
  cbv zeta. pose proof (secure_filename_safe nfkd declared) as Hsafe.
  pose proof (secure_filename_head nfkd declared) as Hhead.
  rewrite <- (path_splitext_join (Werkzeug.secure_filename nfkd declared))
    in Hsafe, Hhead.
  rewrite all_append in Hsafe. apply andb_true_iff in Hsafe as [Hroot _].
  split; [done|]. destruct (Os.path_splitext _).1 as [|a r]; [done|].
  by rewrite startswith_append in Hhead.
Qed.

(** X14. The output path of [/extract-audio] takes the requested format
    as it comes. It is a direct child of the output directory exactly when
    the format holds no path separator and the file name is not "." or ".."
    (an empty root with the format "" or "."). *)
Theorem extract_audio_output_path_child nfkd declared output_format :
  let root := (Os.path_splitext (Werkzeug.secure_filename nfkd declared)).1 in
  App.audio_path nfkd declared output_format
  = App.AUDIO_DIR +:+ "/" +:+ root +:+ "." +:+ output_format
  ∧ is_direct_child App.AUDIO_DIR (App.audio_path nfkd declared output_format)
    = negb (Str.contains "/" output_format)
      && negb (bool_decide (root = "")
               && (bool_decide (output_format = "")
                   || bool_decide (output_format = "."))).
Proof.
  cbv zeta. destruct (splitext_root_secure nfkd declared) as [Hsafe Hhead].
  split; [apply app_audio_path_eq|].
  rewrite app_audio_path_eq. unfold is_direct_child.
  change ("audio_outputs/" +:+ ?n) with ((App.AUDIO_DIR +:+ "/") +:+ n).
  rewrite strip_prefix_append, contains_append.
  rewrite (all_contains Werkzeug.ascii_safe "/" _ eq_refl Hsafe).
  change ("." +:+ output_format) with (String "." output_format).
  destruct (Os.path_splitext _).1 as [|a r].
  - change ("" +:+ String "." output_format) with (String "." output_format).
    cbn [Str.contains orb]. rewrite decide_False by done.
    rewrite (bool_decide_eq_false_2 (String "." output_format = "")) by done.
    rewrite (bool_decide_eq_true_2 ("" = "")) by done. cbn [negb andb].
    rewrite (bool_decide_ext (String "." output_format = ".") (output_format = ""))
      by (split; [by intros [= ->]|by intros ->]).
    rewrite (bool_decide_ext (String "." output_format = "..") (output_format = "."))
      by (split; [by intros [= ->]|by intros ->]).
    by rewrite negb_orb, andb_assoc.
  - rewrite append_cons. simpl in Hhead. apply bool_decide_eq_false in Hhead.
    rewrite !bool_decide_eq_false_2 by (intros [= ]; congruence).
    cbn [negb andb orb]. by rewrite !andb_true_r.
Qed.

(** The ways a request to [/extract-audio] can go. *)
Lemma extract_audio_api_cases nfkd env request σ :
  let declared := from_option App.filename "" (App.request_files request !! "file") in
  let output_format := default "mp3" (App.request_form request !! "output_format") in
  let vp := App.video_path nfkd declared in
  let ap := App.audio_path nfkd declared output_format in
  ∃ r fs out,
    (∀ σ', (App.post_extract_audio nfkd env request σ').1 = r)
    ∧ App.post_extract_audio nfkd env request σ = (r, State fs out)
    ∧ ∀ p, p ≠ vp -> p ≠ ap -> fs !! p = files σ !! p.
Proof.
  cbv zeta. destruct (App.request_files request !! "file") as [file|] eqn:Hfile.
  2: { exists (JSONResponse 400 [("error", "No file provided")]), (files σ), (stdout σ).
       unfold App.post_extract_audio, App.extract_audio_api. rewrite Hfile.
       split; [done|]. split; [by destruct σ|done]. }
  cbn [from_option].
  destruct (decide (App.filename file = "")) as [Hname|Hname].
  { exists (JSONResponse 400 [("error", "No selected file")]), (files σ), (stdout σ).
    unfold App.post_extract_audio, App.extract_audio_api.
    rewrite Hfile, bool_decide_eq_true_2 by done.
    split; [done|]. split; [by destruct σ|done]. }
  destruct (save_failure (save env)) as [msg|] eqn:Hs.
  { exists InternalServerError,
      (after_save (save env) (App.video_path nfkd (App.filename file))
         (App.stream file) (files σ)),
      (stdout σ).
    split; [|split].
    - intros σ'. unfold App.post_extract_audio, App.extract_audio_api.
      rewrite Hfile, bool_decide_eq_false_2 by done.
      by destruct (save env).
    - unfold App.post_extract_audio, App.extract_audio_api.
      rewrite Hfile, bool_decide_eq_false_2 by done.
      destruct σ. by destruct (save env).
    - intros p Hv _. destruct (save env); [done..|]. cbn [after_save].
      by rewrite lookup_insert_ne. }
  assert (save env = Saved) as Hsaved by (by destruct (save env)).
  pose proof (extract_audio_api_saved nfkd env request file) as Hrun.
  cbv zeta in Hrun.
  destruct (clip env) as [m|[[d|m]|]] eqn:Hc.
  all: eexists _, _, _; split;
    [intros σ'; rewrite Hrun by done; rewrite ?Hc; cbn [fst]; reflexivity|].
  all: split; [rewrite Hrun by done; rewrite ?Hc; reflexivity|].
  all: intros p Hv Ha; by rewrite ?lookup_insert_ne.
Qed.

(** X19. [/extract-audio] writes only to its scratch path and its output
    path: every other file is after the request what it was before. *)
Theorem extract_audio_api_touches_two_paths nfkd env request σ p :
  let declared := from_option App.filename "" (App.request_files request !! "file") in
  let output_format := default "mp3" (App.request_form request !! "output_format") in
  p ≠ App.video_path nfkd declared ->
  p ≠ App.audio_path nfkd declared output_format ->
  files (App.post_extract_audio nfkd env request σ).2 !! p = files σ !! p.
Proof.
  cbv zeta. intros Hv Ha.
  destruct (extract_audio_api_cases nfkd env request σ) as (r & fs & out & _ & -> & H).
  by apply H.
Qed.


Lemma convert_reports_save_failure_witness :
  Api.post_convert (failing_env (FailsAfterCreate 2 "disk full"))
    (sample_upload "clip.mp4") (Some "mp3") empty_state
  = (JSONResponse 500 [("detail", "Failed to save uploaded file: disk full")],
     State {[ "uploads/00000000-0000-4000-8000-000000000000_clip.mp4" := "VI" ]} []).
Proof.
  refine (convert_reports_save_failure (failing_env (FailsAfterCreate 2 "disk full"))
            (sample_upload "clip.mp4") "mp3" "clip.mp4" empty_state "disk full"
            _ eq_refl eq_refl eq_refl).
  apply (bool_decide_unpack _). vm_compute. exact I.
Defined.

Lemma convert_touches_two_paths_witness :
  files (Api.post_convert (sample_env 5 (Opens (Some (Writes "AUDIO"))))
           (sample_upload "clip.mp4") (Some "mp3") busy_state).2 !! "notes/todo.txt"
  = files busy_state !! "notes/todo.txt"
  ∧ stdout (Api.post_convert (sample_env 5 (Opens (Some (Writes "AUDIO"))))
              (sample_upload "clip.mp4") (Some "mp3") busy_state).2
    = stdout busy_state.
Proof.
  apply (convert_touches_two_paths (sample_env 5 (Opens (Some (Writes "AUDIO"))))
           (sample_upload "clip.mp4") (Some "mp3") busy_state "notes/todo.txt").
  - vm_compute. discriminate.
  - vm_compute. discriminate.
Defined.

Lemma convert_spares_other_tokens_witness :
  files (Api.post_convert (sample_env 2 (Opens None)) (sample_upload "clip.mp4")
           (Some "mp3") empty_state).2
    !! Api.video_path (sample_env 1 (Opens None)) "clip.mp4"
  = files empty_state !! Api.video_path (sample_env 1 (Opens None)) "clip.mp4"
  ∧ files (Api.post_convert (sample_env 2 (Opens None)) (sample_upload "clip.mp4")
             (Some "mp3") empty_state).2
      !! Api.audio_path (sample_env 1 (Opens None)) "clip.mp4" "mp3"
    = files empty_state !! Api.audio_path (sample_env 1 (Opens None)) "clip.mp4" "mp3".
Proof.
  apply (convert_spares_other_tokens (sample_env 1 (Opens None))
           (sample_env 2 (Opens None)) "clip.mp4" "mp3" (sample_upload "clip.mp4")
           (Some "mp3") empty_state).
  vm_compute. discriminate.
Defined.

Lemma extract_audio_api_touches_two_paths_witness :
  files (App.post_extract_audio fold_ascii (sample_env 0 (Opens (Some (Writes "AUDIO"))))
           (sample_request "clip.mp4" "VIDEO" "mp3") busy_state).2 !! "notes/todo.txt"
  = files busy_state !! "notes/todo.txt".
Proof.
  apply (extract_audio_api_touches_two_paths fold_ascii
           (sample_env 0 (Opens (Some (Writes "AUDIO"))))
           (sample_request "clip.mp4" "VIDEO" "mp3") busy_state "notes/todo.txt").
  - vm_compute. discriminate.
  - vm_compute. discriminate.
Defined.
